(** * NIS2-TCT: the host scanner [nis2_scanner.py]

    A shallow embedding of the class [Nis2ComplianceScanner] and proofs of
    the properties its specification states about it.

    The scanner talks to the operating system (package-query processes, the
    Windows registry, the socket and process tables).  Those facilities are
    gathered in a record [Env] that says what each call answers; the
    scanner's methods are computations in a small state-and-exception monad
    that threads the local variables of the running method and the list of
    external calls made so far.  The program's entry point, which prints
    the report and writes it to a file, is not part of the model. *)

From Stdlib Require Import ZArith Ascii String List.
From stdpp Require Import base decidable countable list gmap strings.

Local Open Scope string_scope.
Local Open Scope Z_scope.
Local Open Scope list_scope.

(** ** Python strings

    A [str] is modelled as a [string] whose characters are the code points
    below 256.  Only the three operations the scanner uses are defined. *)

Module PyStr.

Definition tab : ascii := "009"%char.
Definition newline : ascii := "010"%char.

(** [str.isspace] on one code point: U+0009..U+000D, U+001C..U+0020,
    U+0085 and U+00A0 are the whitespace code points below 256. *)
Definition is_space (c : ascii) : bool :=
  let n := nat_of_ascii c in
  ((9 <=? n) && (n <=? 13) || (28 <=? n) && (n <=? 32)
   || (n =? 133) || (n =? 160))%nat.

Fixpoint lstrip (s : string) : string :=
  match s with
  | String c s' => if is_space c then lstrip s' else s
  | EmptyString => EmptyString
  end.

(** Strips trailing whitespace: a character is kept when something that
    is kept follows it, or when it is not whitespace. *)
Fixpoint rstrip (s : string) : string :=
  match s with
  | String c s' =>
      match rstrip s' with
      | EmptyString => if is_space c then EmptyString else String c EmptyString
      | r => String c r
      end
  | EmptyString => EmptyString
  end.

(** [s.strip()] *)
Definition strip (s : string) : string := rstrip (lstrip s).

(** [s.split(sep)] for a separator of one character: the pieces between
    the occurrences of [sep], so one more piece than there are
    separators, and [['']] for the empty string. *)
Fixpoint split (sep : ascii) (s : string) : list string :=
  match s with
  | EmptyString => [EmptyString]
  | String c s' =>
      if Ascii.eqb c sep then EmptyString :: split sep s'
      else match split sep s' with
           | w :: ws => String c w :: ws
           | [] => [String c EmptyString]
           end
  end.

(** Truthiness of a string: [if line:] *)
Definition truthy (s : string) : bool :=
  match s with EmptyString => false | _ => true end.

(** The number of occurrences of a character. *)
Fixpoint count (c : ascii) (s : string) : nat :=
  match s with
  | EmptyString => O
  | String c' s' => ((if Ascii.eqb c' c then 1 else 0) + count c s')%nat
  end.

End PyStr.

(** ** Exceptions

    The exception classes the scanner's handlers name, and those its
    callees raise.  Every class here derives from [Exception]. *)

Inductive exn_class :=
  | Exception
  | ValueError
  | OSError
  | FileNotFoundError
  | PermissionError
  | CalledProcessError
  | PsutilError
  | NoSuchProcess
  | ZombieProcess
  | AccessDenied.

Global Instance exn_class_eq_dec : EqDecision exn_class.
Proof. solve_decision. Defined.

(** The direct base class. [FileNotFoundError] and [PermissionError] derive
    from [OSError]; in psutil, [ZombieProcess] derives from
    [NoSuchProcess], and [NoSuchProcess] and [AccessDenied] from
    [psutil.Error]. *)
Definition base_class (c : exn_class) : option exn_class :=
  match c with
  | Exception => None
  | ValueError | OSError | CalledProcessError | PsutilError => Some Exception
  | FileNotFoundError | PermissionError => Some OSError
  | NoSuchProcess | AccessDenied => Some PsutilError
  | ZombieProcess => Some NoSuchProcess
  end.

Fixpoint ancestor (fuel : nat) (c d : exn_class) : bool :=
  bool_decide (c = d) ||
  match fuel with
  | O => false
  | S fuel' =>
      match base_class c with
      | Some b => ancestor fuel' b d
      | None => false
      end
  end.

(** [issubclass c d]; no class is more than three steps below
    [Exception]. *)
Definition issubclass (c d : exn_class) : bool := ancestor 3 c d.

(** A raised exception: its class and the text [str(e)] gives. *)
Record exn := Exn { exn_cls : exn_class; exn_str : string }.

(** [except (c1, c2, ...)]: does the clause catch [e]? *)
Definition catches (classes : list exn_class) (e : exn) : bool :=
  existsb (issubclass (exn_cls e)) classes.

Inductive outcome (A : Type) :=
  | Returns (a : A)
  | Raises (e : exn).
Arguments Returns {A} a.
Arguments Raises {A} e.

(** ** Values of the report

    The report is made of strings, integers, lists and dictionaries.  A
    dictionary is the list of its items in insertion order. *)

Local Unset Elimination Schemes.
Inductive value :=
  | VStr (s : string)
  | VInt (n : Z)
  | VList (l : list value)
  | VDict (d : list (string * value)).
Local Set Elimination Schemes.

(** Induction on values, with the hypothesis for every element of a list
    and every item of a dictionary. *)
Section value_induction.
Variable P : value → Prop.
Hypothesis Hstr : ∀ s, P (VStr s).
Hypothesis Hint : ∀ n, P (VInt n).
Hypothesis Hlist : ∀ l, Forall P l → P (VList l).
Hypothesis Hdict : ∀ d, Forall (λ kv, P kv.2) d → P (VDict d).

Fixpoint value_ind (v : value) : P v :=
  match v with
  | VStr s => Hstr s
  | VInt n => Hint n
  | VList l =>
      Hlist l ((fix go (l : list value) : Forall P l :=
                  match l with
                  | [] => Forall_nil_2 P
                  | x :: l' => Forall_cons_2 P x l' (value_ind x) (go l')
                  end) l)
  | VDict d =>
      Hdict d ((fix go (d : list (string * value)) : Forall (λ kv, P kv.2) d :=
                  match d with
                  | [] => Forall_nil_2 _
                  | kv :: d' =>
                      Forall_cons_2 (λ kv, P kv.2) kv d' (value_ind kv.2) (go d')
                  end) d)
  end.
End value_induction.

(** Values are countable, so that they can be put in a [gset] the way the
    scanner puts tuples of items in a Python [set]. *)
Fixpoint value_to_tree (v : value) : gen_tree (string + Z) :=
  match v with
  | VStr s => GenLeaf (inl s)
  | VInt n => GenLeaf (inr n)
  | VList l => GenNode 0 (map value_to_tree l)
  | VDict d =>
      GenNode 1 (map (λ kv, GenNode 2 [GenLeaf (inl kv.1); value_to_tree kv.2]) d)
  end.

Fixpoint tree_to_value (t : gen_tree (string + Z)) : value :=
  match t with
  | GenLeaf (inl s) => VStr s
  | GenLeaf (inr n) => VInt n
  | GenNode O ts => VList (map tree_to_value ts)
  | GenNode _ ts =>
      VDict (map (λ t', match t' with
                        | GenNode _ [GenLeaf (inl k); tv] => (k, tree_to_value tv)
                        | _ => (EmptyString, VInt 0)
                        end) ts)
  end.

Lemma tree_to_value_to_tree (v : value) : tree_to_value (value_to_tree v) = v.
Proof.
  induction v as [s|n|l IH|d IH] using value_ind; simpl; try reflexivity.
  - f_equal. rewrite map_map. induction IH as [|x l Hx _ IHl]; simpl; [done|].
    by rewrite Hx, IHl.
  - f_equal. rewrite map_map. induction IH as [|[k x] d Hx _ IHd]; simpl; [done|].
    simpl in Hx. by rewrite Hx, IHd.
Qed.

Global Instance value_eq_dec : EqDecision value.
Proof.
  intros v w. destruct (decide (value_to_tree v = value_to_tree w)) as [E|N].
  - left. by rewrite <- (tree_to_value_to_tree v), E, tree_to_value_to_tree.
  - right. by intros ->.
Defined.

Global Instance value_countable : Countable value :=
  inj_countable' value_to_tree tree_to_value tree_to_value_to_tree.

(** [d[k]] on the items of a dictionary. *)
Fixpoint dict_get (k : string) (d : list (string * value)) : option value :=
  match d with
  | [] => None
  | (k', v) :: d' => if String.eqb k' k then Some v else dict_get k d'
  end.

(** [v[k]] when [v] is a dictionary. *)
Definition get (k : string) (v : value) : option value :=
  match v with
  | VDict d => dict_get k d
  | _ => None
  end.

(** [v[k1][k2]...] *)
Fixpoint get_path (ks : list string) (v : value) : option value :=
  match ks with
  | [] => Some v
  | k :: ks' =>
      match get k v with
      | Some v' => get_path ks' v'
      | None => None
      end
  end.

(** ** The operating system, as the scanner sees it *)

(** [socket.SocketKind], the type of [conn.type]. *)
Inductive SocketKind := SOCK_STREAM | SOCK_DGRAM | SOCK_RAW | SOCK_RDM | SOCK_SEQPACKET.

(** [kind.name] *)
Definition SocketKind_name (k : SocketKind) : string :=
  match k with
  | SOCK_STREAM => "SOCK_STREAM"
  | SOCK_DGRAM => "SOCK_DGRAM"
  | SOCK_RAW => "SOCK_RAW"
  | SOCK_RDM => "SOCK_RDM"
  | SOCK_SEQPACKET => "SOCK_SEQPACKET"
  end.

(** psutil's [addr(ip, port)] and [sconn] named tuples; of the latter, the
    fields the scanner reads.  [pid] is [None] or an integer. *)
Record addr := { ip : string; port : Z }.
Record sconn := {
  type_ : SocketKind;
  laddr : addr;
  status : string;
  pid : option Z;
}.

(** What launching a command does: the executable is missing, it cannot be
    executed, or it runs and exits with a return code after writing to its
    standard output. *)
Inductive launch :=
  | NotFound
  | NotExecutable
  | Exited (returncode : Z) (stdout : string).

(** A subkey of a registry key: its name, whether it may be opened, and its
    named values.  The values are strings, as registry values of type
    REG_SZ are, which is the type of [DisplayName] and [DisplayVersion].
    A value of another registry type (a number, bytes, a list of strings)
    is outside the model: the source keeps such a [DisplayName] as
    [winreg] gives it, and a name that is a list makes the set that
    removes the duplicates raise [TypeError]. *)
Record reg_subkey := {
  subkey_name : string;
  subkey_readable : bool;
  subkey_values : list (string * string);
}.

Record Env := {
  platform_system : string;
  platform_release : string;
  platform_version : string;
  platform_machine : string;
  socket_gethostname : string;
  utcnow_isoformat : string;
  (** the outcome of running a command line *)
  os_launch : list string → launch;
  (** the keys under [HKEY_LOCAL_MACHINE], by path *)
  hklm : string → option (list reg_subkey);
  (** what [psutil.net_connections(kind='inet')] answers *)
  os_net_connections : outcome (list sconn);
  (** what [psutil.Process(pid).name()] answers *)
  os_process_name : Z → outcome string;
}.

(** ** The scanner's monad

    A method runs on a state made of the scanner object, the local
    variable the method mutates, and the external calls made so far; it
    returns a value or raises, and the state survives a raised exception. *)

(** Console output, [subprocess.run], [psutil.net_connections] and
    [psutil.Process(pid).name()].  Registry reads leave no event. *)
Inductive event :=
  | EvPrint (s : string)
  | EvRun (argv : list string)
  | EvNetConnections
  | EvProcessName (p : Z).

Global Instance event_eq_dec : EqDecision event.
Proof. solve_decision. Defined.

Record Nis2ComplianceScanner := {
  os_type : string;
  report : value;
}.

Record state (L : Type) := State {
  self : Nis2ComplianceScanner;
  locals : L;
  trace : list event;
}.
Arguments State {L} _ _ _.
Arguments self {L} _.
Arguments locals {L} _.
Arguments trace {L} _.

Definition M (L A : Type) : Type := state L → outcome A * state L.

Global Instance M_ret {L} : MRet (M L) := λ A a s, (Returns a, s).

Global Instance M_bind {L} : MBind (M L) := λ A B f m s,
  match m s with
  | (Returns a, s') => f a s'
  | (Raises e, s') => (Raises e, s')
  end.

Section combinators.
Context {L : Type}.

Definition raise {A} (e : exn) : M L A := λ s, (Raises e, s).

Definition emit (ev : event) : M L unit := λ s,
  (Returns (), State (self s) (locals s) (trace s ++ [ev])).

Definition lift {A} (r : outcome A) : M L A := λ s, (r, s).

Definition get_local : M L L := λ s, (Returns (locals s), s).

Definition set_local (l : L) : M L unit := λ s,
  (Returns (), State (self s) l (trace s)).

Definition get_self : M L Nis2ComplianceScanner := λ s, (Returns (self s), s).

Definition set_self (o : Nis2ComplianceScanner) : M L unit := λ s,
  (Returns (), State o (locals s) (trace s)).

(** [try: body / except classes as e: handler e] *)
Definition try_except {A} (body : M L A) (classes : list exn_class)
    (handler : exn → M L A) : M L A := λ s,
  match body s with
  | (Raises e, s') => if catches classes e then handler e s' else (Raises e, s')
  | r => r
  end.

(** [try: body / finally: cleanup] *)
Definition try_finally {A} (body : M L A) (cleanup : M L unit) : M L A := λ s,
  let '(r, s') := body s in
  match cleanup s' with
  | (Returns _, s'') => (r, s'')
  | (Raises e, s'') => (Raises e, s'')
  end.

(** [for x in xs: body x] *)
Fixpoint for_each {X} (xs : list X) (body : X → M L unit) : M L unit :=
  match xs with
  | [] => mret ()
  | x :: xs' => body x ;; for_each xs' body
  end.

(** Calling a method: it runs on a frame of its own. *)
Definition call {L' A} (frame : L') (m : M L' A) : M L A := λ s,
  let '(r, s') := m (State (self s) frame (trace s)) in
  (r, State (self s') (locals s) (trace s')).

Definition print (s : string) : M L unit := emit (EvPrint s).
End combinators.

(** [lst.append(x)] on the method's list. *)
Definition append {X} (x : X) : M (list X) unit :=
  l ← get_local; set_local (l ++ [x]).

(** [a, b = xs] *)
Definition unpack2 {L} (xs : list string) : M L (string * string) :=
  match xs with
  | [a; b] => mret (a, b)
  | [] => raise (Exn ValueError "not enough values to unpack (expected 2, got 0)")
  | [_] => raise (Exn ValueError "not enough values to unpack (expected 2, got 1)")
  | _ => raise (Exn ValueError "too many values to unpack (expected 2)")
  end.

(** [d.items()], [dict(items)] and [d[k] = v]: assigning to a present key
    keeps its place, a new key goes last. *)
Definition dict_items (v : value) : list (string * value) :=
  match v with
  | VDict d => d
  | _ => []
  end.

Fixpoint dict_set (k : string) (v : value) (d : list (string * value))
    : list (string * value) :=
  match d with
  | [] => [(k, v)]
  | (k', v') :: d' =>
      if String.eqb k' k then (k', v) :: d' else (k', v') :: dict_set k v d'
  end.

Definition dict (items : list (string * value)) : value :=
  VDict (fold_left (λ d kv, dict_set kv.1 kv.2 d) items []).

(** ** External calls *)

Section scanner.
Variable env : Env.

Section primitives.
Context {L : Type}.

(** [subprocess.run(argv, capture_output=True, text=True, check=True)]
    and then [.stdout]: with [check=True] a return code other than 0
    raises [CalledProcessError]. *)
Definition subprocess_run (argv : list string) : M L string :=
  emit (EvRun argv) ;;
  match os_launch env argv with
  | NotFound => raise (Exn FileNotFoundError "[Errno 2] No such file or directory")
  | NotExecutable => raise (Exn PermissionError "[Errno 13] Permission denied")
  | Exited returncode stdout =>
      if returncode =? 0 then mret stdout
      else raise (Exn CalledProcessError "Command returned non-zero exit status")
  end.

(** [winreg.OpenKey(winreg.HKEY_LOCAL_MACHINE, path)] *)
Definition OpenKey_HKLM (path : string) : M L (list reg_subkey) :=
  match hklm env path with
  | Some key => mret key
  | None => raise (Exn FileNotFoundError "[WinError 2] The system cannot find the file specified")
  end.

(** [winreg.QueryInfoKey(key)[0]]: the number of subkeys. *)
Definition QueryInfoKey_0 (key : list reg_subkey) : nat := length key.

(** [winreg.EnumKey(key, i)] *)
Definition EnumKey (key : list reg_subkey) (i : nat) : M L string :=
  match key !! i with
  | Some sk => mret (subkey_name sk)
  | None => raise (Exn OSError "[WinError 259] No more data is available")
  end.

(** [winreg.OpenKey(key, subkey_name)] *)
Definition OpenKey (key : list reg_subkey) (name : string) : M L reg_subkey :=
  match find (λ sk, String.eqb (subkey_name sk) name) key with
  | Some sk =>
      if subkey_readable sk then mret sk
      else raise (Exn PermissionError "[WinError 5] Access is denied")
  | None => raise (Exn FileNotFoundError "[WinError 2] The system cannot find the file specified")
  end.

(** [winreg.QueryValueEx(subkey, name)[0]], for values that are strings. *)
Definition QueryValueEx_0 (subkey : reg_subkey) (name : string) : M L string :=
  match find (λ nv, String.eqb nv.1 name) (subkey_values subkey) with
  | Some nv => mret nv.2
  | None => raise (Exn FileNotFoundError "[WinError 2] The system cannot find the file specified")
  end.

(** [subkey.Close()] *)
Definition Close (subkey : reg_subkey) : M L unit := mret ().

(** [psutil.net_connections(kind='inet')] *)
Definition net_connections : M L (list sconn) :=
  emit EvNetConnections ;; lift (os_net_connections env).

(** [psutil.Process(pid).name()] *)
Definition Process_name (p : Z) : M L string :=
  emit (EvProcessName p) ;; lift (os_process_name env p).
End primitives.

(** ** The methods of [Nis2ComplianceScanner] *)

(** [__init__] *)
Definition init : Nis2ComplianceScanner :=
  {| os_type := platform_system env; report := VDict [] |}.

Definition get_system_info {L} : M L value :=
  o ← get_self;
  mret (VDict [
    ("os_type", VStr (os_type o));
    ("os_release", VStr (platform_release env));
    ("os_version", VStr (platform_version env));
    ("architecture", VStr (platform_machine env));
    ("hostname", VStr (socket_gethostname env))
  ]).

Definition dpkg_argv : list string :=
  ["dpkg-query"; "-W";
   "-f=${Package}" +:+ String PyStr.tab ("${Version}" +:+ String PyStr.newline "")].

Definition rpm_argv : list string :=
  ["rpm"; "-qa"; "--qf";
   "%{NAME}" +:+ String PyStr.tab ("%{VERSION}-%{RELEASE}" +:+ String PyStr.newline "")].

(** The body of the loop over the lines of a query's output. *)
Definition read_line (line : string) : M (list value) unit :=
  if PyStr.truthy line then
    '(name, version) ← unpack2 (PyStr.split PyStr.tab line);
    append (VDict [("name", VStr name); ("version", VStr version)])
  else mret ().

(** The body of both [try] blocks: run the query, then one package for
    every non-empty line of its stripped output. *)
Definition query_packages (argv : list string) : M (list value) (list value) :=
  stdout ← subprocess_run argv;
  for_each (PyStr.split PyStr.newline (PyStr.strip stdout)) read_line ;;
  get_local.

Definition get_installed_software_linux : M (list value) (list value) :=
  set_local [] ;;
  try_except (query_packages dpkg_argv)
    [CalledProcessError; FileNotFoundError] (λ _,
      try_except (query_packages rpm_argv)
        [CalledProcessError; FileNotFoundError] (λ _,
          mret [VDict [("error",
            VStr "Could not determine the package manager (neither dpkg nor rpm)")]])).

Definition uninstall_paths : list string :=
  ["SOFTWARE\Microsoft\Windows\CurrentVersion\Uninstall";
   "SOFTWARE\WOW6432Node\Microsoft\Windows\CurrentVersion\Uninstall"].

(** The body of the loop over the subkeys of an uninstall key.  The
    values being strings, [str(version)] leaves the version as it is. *)
Definition read_subkey (key : list reg_subkey) (i : nat) : M (list value) unit :=
  subkey_name ← EnumKey key i;
  subkey ← OpenKey key subkey_name;
  try_finally
    (try_except
       (name ← QueryValueEx_0 subkey "DisplayName";
        version ← QueryValueEx_0 subkey "DisplayVersion";
        append (VDict [("name", VStr name); ("version", VStr version)]))
       [OSError] (λ _, mret ()))
    (Close subkey).

(** The body of the loop over the uninstall paths. *)
Definition read_uninstall_path (path : string) : M (list value) unit :=
  try_except
    (key ← OpenKey_HKLM path;
     for_each (seq 0 (QueryInfoKey_0 key)) (read_subkey key))
    [OSError] (λ _, mret ()).

Definition get_installed_software_windows : M (list value) (list value) :=
  set_local [] ;;
  for_each uninstall_paths read_uninstall_path ;;
  packages ← get_local;
  let tuples : gset (list (string * value)) := list_to_set (dict_items <$> packages) in
  mret (dict <$> elements tuples).

(** Truthiness of [conn.pid]: [None] and [0] are false. *)
Definition pid_truthy (p : option Z) : option Z :=
  match p with
  | Some n => if n =? 0 then None else Some n
  | None => None
  end.

(** The body of the loop over the connections. *)
Definition listening_connection (conn : sconn) : M (list value) unit :=
  if String.eqb (status conn) "LISTEN" then
    let proc_name := "N/A" in
    proc_name ←
      match pid_truthy (pid conn) with
      | Some p =>
          try_except (Process_name p)
            [NoSuchProcess] (λ _, mret "Process terminated")
      | None => mret proc_name
      end;
    append (VDict [
      ("port", VInt (port (laddr conn)));
      ("address", VStr (ip (laddr conn)));
      ("protocol",
       VStr (if String.eqb (SocketKind_name (type_ conn)) "SOCK_STREAM"
             then "TCP" else "UDP"));
      ("process_name", VStr proc_name)
    ])
  else mret ().

(** The [try] block returns nothing; its [except] clause returns the
    error list from the method, so the block yields [Some] of a value to
    return at once, or [None] to go on after it. *)
Definition get_network_info : M (list value) (list value) :=
  set_local [] ;;
  returned ← try_except
    (connections ← net_connections;
     for_each connections listening_connection ;;
     mret None)
    [Exception] (λ e,
      mret (Some [VDict [("error",
        VStr ("Error getting network information: " +:+ exn_str e))]]));
  match returned with
  | Some result => mret result
  | None => get_local
  end.

(** The software list of [run_scan], by operating system. *)
Definition installed_software {L} : M L (list value) :=
  o ← get_self;
  if String.eqb (os_type o) "Linux" then
    call [] get_installed_software_linux
  else if String.eqb (os_type o) "Windows" then
    call [] get_installed_software_windows
  else
    mret [VDict [("error",
      VStr ("Operating system " +:+ os_type o +:+ " is not supported"))]].

Definition run_scan : M unit value :=
  print "Starting system scan..." ;;
  print "1. Gathering system information and software list (SBOM)..." ;;
  software_list ← installed_software;
  system_info ← call () get_system_info;
  let asset_management_data := VDict [
    ("system_info", system_info);
    ("installed_software_sbom", VList software_list)
  ] in
  print "2. Analyzing network connections..." ;;
  network_data ← call [] get_network_info;
  o ← get_self;
  set_self {| os_type := os_type o; report := VDict [
    ("scan_metadata", VDict [
      ("scan_time_utc", VStr (utcnow_isoformat env));
      ("scanner_version", VStr "0.1.0")
    ]);
    ("nis2_compliance_checks", VDict [
      ("article_21_asset_management", VDict [
        ("title", VStr "Asset and Software Inventory (SBOM)");
        ("status", VStr "COMPLETED");
        ("data", asset_management_data)
      ]);
      ("article_21_system_security", VDict [
        ("title", VStr "Basic System Security Analysis (Open Ports)");
        ("status", VStr "COMPLETED");
        ("data", VDict [
          ("listening_ports", VList network_data)
        ])
      ])
    ])
  ] |} ;;
  print "Scan complete." ;;
  o ← get_self;
  mret (report o).

(** A run of the scanner from a fresh object: what [run_scan] returns or
    raises, and the external calls it made. *)
Definition scan : outcome value * list event :=
  let '(r, s) := run_scan (State init () []) in (r, trace s).
End scanner.

(** Running a collector on its own, from a fresh object. *)
Definition run {L A} (env : Env) (m : M L A) (frame : L)
    : outcome A * list event :=
  let '(r, s) := m (State (init env) frame []) in (r, trace s).


(** * Properties *)

(** ** Exceptions and the monad *)

Lemma catches_Exception (e : exn) : catches [Exception] e = true.
Proof. destruct e as [[] ?]; reflexivity. Qed.

(** The inner handler of the socket collector catches [ZombieProcess] too. *)
Lemma catches_NoSuchProcess (e : exn) :
  catches [NoSuchProcess] e = true ↔
  exn_cls e = NoSuchProcess ∨ exn_cls e = ZombieProcess.
Proof.
  destruct e as [[] ?]; simpl; split;
    solve [ auto | intros; discriminate | intros [?|?]; discriminate ].
Qed.

Ltac munfold :=
  unfold mbind, M_bind, mret, M_ret, raise, emit, lift, get_local, set_local,
    get_self, set_self, print, append in *.

Lemma bind_unfold {L A B} (m : M L A) (f : A → M L B) (s : state L) :
  (m ≫= f) s =
  match m s with
  | (Returns a, s') => f a s'
  | (Raises e, s') => (Raises e, s')
  end.
Proof. reflexivity. Qed.

Lemma for_each_cons {L X} (x : X) (xs : list X) (body : X → M L unit) (s : state L) :
  for_each (x :: xs) body s =
  match body x s with
  | (Returns _, s') => for_each xs body s'
  | (Raises e, s') => (Raises e, s')
  end.
Proof. reflexivity. Qed.

Lemma bind_returns {L A B} (m : M L A) (f : A → M L B) s a s' :
  m s = (Returns a, s') → (m ≫= f) s = f a s'.
Proof. intros E. by rewrite bind_unfold, E. Qed.

Lemma bind_raises {L A B} (m : M L A) (f : A → M L B) s e s' :
  m s = (Raises e, s') → (m ≫= f) s = (Raises e, s').
Proof. intros E. by rewrite bind_unfold, E. Qed.

(** One step of a computation: the head of a bind returns. *)
Tactic Notation "mstep" "by" tactic3(tac) :=
  erewrite bind_returns by tac; cbn [self locals trace].
Tactic Notation "mstep" := mstep by reflexivity.

Lemma call_eq {L L' A} (frame : L') (m : M L' A) o (l : L) tr r o' l' tr' :
  m (State o frame tr) = (r, State o' l' tr') →
  call frame m (State o l tr) = (r, State o' l tr').
Proof. intros E. unfold call. simpl. by rewrite E. Qed.

(** ** Collectors leave the scanner alone and only add to the trace

    A computation is framed when it does not assign to the scanner object
    and the calls already made do not change what it does: run after a
    trace [tr], it does what it does after the empty trace, and the calls
    it makes come after [tr]. *)

Definition framed {L A} (m : M L A) : Prop :=
  ∀ o l tr,
    m (State o l tr) =
    let '(r, s') := m (State o l []) in
    (r, State o (locals s') (tr ++ trace s')).

Lemma framed_inv {L A} (m : M L A) (o : Nis2ComplianceScanner) (l : L) :
  framed m →
  ∃ r l' tr', m (State o l []) = (r, State o l' tr') ∧
    ∀ tr, m (State o l tr) = (r, State o l' (tr ++ tr')).
Proof.
  intros Hm. pose proof (Hm o l []) as H0.
  destruct (m (State o l [])) as [r [o' l' tr']] eqn:E. simpl in H0.
  injection H0 as ->. exists r, l', tr'. split; [done|].
  intros tr. rewrite (Hm o l tr), E. reflexivity.
Qed.

Lemma framed_intro {L A} (m : M L A) :
  (∀ o l, ∃ r l' tr', ∀ tr, m (State o l tr) = (r, State o l' (tr ++ tr'))) →
  framed m.
Proof.
  intros H o l tr. destruct (H o l) as (r & l' & tr' & E).
  rewrite (E tr), (E []). reflexivity.
Qed.

Section framed.
Context {L : Type}.

Lemma framed_ret {A} (a : A) : framed (mret a : M L A).
Proof. intros o l tr. munfold. simpl. by rewrite app_nil_r. Qed.

Lemma framed_raise {A} (e : exn) : framed (raise e : M L A).
Proof. intros o l tr. munfold. simpl. by rewrite app_nil_r. Qed.

Lemma framed_lift {A} (r : outcome A) : framed (lift r : M L A).
Proof. intros o l tr. munfold. simpl. by rewrite app_nil_r. Qed.

Lemma framed_emit (ev : event) : framed (emit ev : M L unit).
Proof. intros o l tr. reflexivity. Qed.

Lemma framed_get_local : framed (get_local : M L L).
Proof. intros o l tr. munfold. simpl. by rewrite app_nil_r. Qed.

Lemma framed_set_local (l : L) : framed (set_local l).
Proof. intros o l' tr. munfold. simpl. by rewrite app_nil_r. Qed.

Lemma framed_get_self : framed (get_self : M L _).
Proof. intros o l tr. munfold. simpl. by rewrite app_nil_r. Qed.

Lemma framed_bind {A B} (m : M L A) (f : A → M L B) :
  framed m → (∀ a, framed (f a)) → framed (m ≫= f).
Proof.
  intros Hm Hf. apply framed_intro. intros o l.
  destruct (framed_inv m o l Hm) as (r & l' & tr' & _ & E).
  destruct r as [a|e].
  - destruct (framed_inv (f a) o l' (Hf a)) as (r & l'' & tr'' & _ & E').
    exists r, l'', (tr' ++ tr''). intros tr.
    by rewrite bind_unfold, E, E', app_assoc.
  - exists (Raises e), l', tr'. intros tr. by rewrite bind_unfold, E.
Qed.

Lemma framed_try_except {A} (body : M L A) classes (handler : exn → M L A) :
  framed body → (∀ e, framed (handler e)) → framed (try_except body classes handler).
Proof.
  intros Hm Hf. apply framed_intro. intros o l.
  destruct (framed_inv body o l Hm) as (r & l' & tr' & _ & E).
  destruct r as [a|e].
  - exists (Returns a), l', tr'. intros tr. unfold try_except. by rewrite E.
  - destruct (catches classes e) eqn:C.
    + destruct (framed_inv (handler e) o l' (Hf e)) as (r & l'' & tr'' & _ & E').
      exists r, l'', (tr' ++ tr''). intros tr. unfold try_except.
      by rewrite E, C, E', app_assoc.
    + exists (Raises e), l', tr'. intros tr. unfold try_except. by rewrite E, C.
Qed.

Lemma framed_try_finally {A} (body : M L A) (cleanup : M L unit) :
  framed body → framed cleanup → framed (try_finally body cleanup).
Proof.
  intros Hm Hf. apply framed_intro. intros o l.
  destruct (framed_inv body o l Hm) as (r & l' & tr' & _ & E).
  destruct (framed_inv cleanup o l' Hf) as (r' & l'' & tr'' & _ & E').
  destruct r' as [[]|e].
  - exists r, l'', (tr' ++ tr''). intros tr. unfold try_finally.
    by rewrite E, E', app_assoc.
  - exists (Raises e), l'', (tr' ++ tr''). intros tr. unfold try_finally.
    by rewrite E, E', app_assoc.
Qed.

Lemma framed_for_each {X} (xs : list X) (body : X → M L unit) :
  (∀ x, framed (body x)) → framed (for_each xs body).
Proof.
  intros Hb. induction xs as [|x xs IH]; simpl.
  - apply framed_ret.
  - apply framed_bind; [apply Hb|]. intros []. apply IH.
Qed.

Lemma framed_call {L' A} (frame : L') (m : M L' A) :
  framed m → framed (call frame m : M L A).
Proof.
  intros Hm. apply framed_intro. intros o l.
  destruct (framed_inv m o frame Hm) as (r & l' & tr' & _ & E).
  exists r, l, tr'. intros tr. unfold call. simpl. by rewrite E.
Qed.
End framed.

Create HintDb framed discriminated.

Ltac framed_tac :=
  repeat first
    [ solve [auto 1 with framed nocore]
    | match goal with
      | |- framed (match ?x with _ => _ end) => destruct x
      | |- framed (if ?b then _ else _) => destruct b
      | |- framed _ => fail 1
      | |- ∀ _, _ => intro
      end
    | apply framed_bind
    | apply framed_try_except
    | apply framed_try_finally
    | apply framed_for_each
    | apply framed_call
    | apply framed_ret
    | apply framed_raise
    | apply framed_lift
    | apply framed_emit
    | apply framed_get_local
    | apply framed_set_local
    | apply framed_get_self ].

Section framed_methods.
Variable env : Env.

Lemma framed_read_line line : framed (read_line line).
Proof. unfold read_line, unpack2, append. framed_tac. Qed.
#[local] Hint Resolve framed_read_line : framed.

Lemma framed_query_packages argv : framed (query_packages env argv).
Proof.
  unfold query_packages, subprocess_run. framed_tac.
Qed.
#[local] Hint Resolve framed_query_packages : framed.

Lemma framed_linux : framed (get_installed_software_linux env).
Proof.
  unfold get_installed_software_linux. framed_tac.
Qed.
#[local] Hint Resolve framed_linux : framed.

Lemma framed_read_subkey key i : framed (read_subkey key i).
Proof.
  unfold read_subkey, EnumKey, OpenKey, QueryValueEx_0, Close, append. framed_tac.
Qed.
#[local] Hint Resolve framed_read_subkey : framed.

Lemma framed_read_uninstall_path path : framed (read_uninstall_path env path).
Proof. unfold read_uninstall_path, OpenKey_HKLM. framed_tac. Qed.
#[local] Hint Resolve framed_read_uninstall_path : framed.

Lemma framed_windows : framed (get_installed_software_windows env).
Proof. unfold get_installed_software_windows. framed_tac. Qed.
#[local] Hint Resolve framed_windows : framed.

Lemma framed_listening_connection conn : framed (listening_connection env conn).
Proof. unfold listening_connection, Process_name, append. framed_tac. Qed.
#[local] Hint Resolve framed_listening_connection : framed.

Lemma framed_network : framed (get_network_info env).
Proof.
  unfold get_network_info, net_connections. framed_tac.
Qed.
#[local] Hint Resolve framed_network : framed.
End framed_methods.

#[export] Hint Resolve framed_read_line framed_query_packages framed_linux
  framed_read_subkey framed_read_uninstall_path framed_windows
  framed_listening_connection framed_network : framed.

(** ** A scan, from what the collectors do on their own *)

Lemma framed_installed_software {L} env : framed (installed_software env : M L _).
Proof.
  unfold installed_software. framed_tac.
Qed.

Lemma framed_get_system_info {L} env : framed (get_system_info env : M L _).
Proof. unfold get_system_info. framed_tac. Qed.

Lemma run_framed {L A} env (m : M L A) (frame : L) (tr : list event) :
  framed m →
  ∃ l', m (State (init env) frame tr) =
        ((run env m frame).1, State (init env) l' (tr ++ (run env m frame).2)).
Proof.
  intros Hm. destruct (framed_inv m (init env) frame Hm) as (r & l' & tr' & E0 & E).
  exists l'. unfold run. rewrite E0, E. reflexivity.
Qed.

(** What the two findings of a report say: each is there with its status,
    and carries the given payload. *)
Definition asset_management : list string :=
  ["nis2_compliance_checks"; "article_21_asset_management"].
Definition system_security : list string :=
  ["nis2_compliance_checks"; "article_21_system_security"].

Definition findings (report : value) (software network : list value) : Prop :=
  get_path (asset_management ++ ["status"]) report = Some (VStr "COMPLETED") ∧
  get_path (asset_management ++ ["data"; "installed_software_sbom"]) report
    = Some (VList software) ∧
  get_path (system_security ++ ["status"]) report = Some (VStr "COMPLETED") ∧
  get_path (system_security ++ ["data"; "listening_ports"]) report
    = Some (VList network).

Definition scan_prologue : list event :=
  [EvPrint "Starting system scan...";
   EvPrint "1. Gathering system information and software list (SBOM)..."].

Lemma scan_outcome env :
  match run env (installed_software env) () with
  | (Raises e, tr1) => scan env = (Raises e, scan_prologue ++ tr1)
  | (Returns software, tr1) =>
      match run env (get_network_info env) [] with
      | (Raises e, tr2) =>
          scan env =
          (Raises e, scan_prologue ++ tr1
                     ++ [EvPrint "2. Analyzing network connections..."] ++ tr2)
      | (Returns network, tr2) =>
          ∃ report,
            scan env =
            (Returns report,
             scan_prologue ++ tr1 ++ [EvPrint "2. Analyzing network connections..."]
               ++ tr2 ++ [EvPrint "Scan complete."]) ∧
            findings report software network
      end
  end.
Proof.
  pose proof (run_framed env (installed_software env) () scan_prologue
                (framed_installed_software env)) as [[] E1].
  destruct (run env (installed_software env) ()) as [[software|e] tr1];
    cbn [fst snd] in E1.
  - destruct (run_framed env (get_network_info env) []
                ((scan_prologue ++ tr1) ++ [EvPrint "2. Analyzing network connections..."])
                (framed_network env)) as [l' E2].
    destruct (run env (get_network_info env) []) as [[network|e] tr2];
      cbn [fst snd] in E2.
    + eexists. split.
      * unfold scan, run_scan.
        do 2 mstep. mstep by exact E1. do 2 mstep.
        mstep by (eapply call_eq; exact E2). do 4 mstep.
        cbn. rewrite <- !app_assoc. reflexivity.
      * repeat split.
    + unfold scan, run_scan.
      do 2 mstep. mstep by exact E1. do 2 mstep.
      erewrite bind_raises by (eapply call_eq; exact E2).
      cbn. rewrite <- !app_assoc. reflexivity.
  - unfold scan, run_scan.
    do 2 mstep. erewrite bind_raises by exact E1.
    reflexivity.
Qed.

(** ** The listening-socket collector *)

(** The dictionary the loop appends for a connection, given the name
    found for its process. *)
Definition listening_socket (c : sconn) (proc_name : string) : value :=
  VDict [
    ("port", VInt (port (laddr c)));
    ("address", VStr (ip (laddr c)));
    ("protocol",
     VStr (if String.eqb (SocketKind_name (type_ c)) "SOCK_STREAM"
           then "TCP" else "UDP"));
    ("process_name", VStr proc_name)
  ].

Definition network_error (e : exn) : list value :=
  [VDict [("error", VStr ("Error getting network information: " +:+ exn_str e))]].

Section network.
Variable env : Env.

Lemma listening_connection_skip c s :
  status c ≠ "LISTEN" → listening_connection env c s = (Returns (), s).
Proof.
  intros H. unfold listening_connection.
  by destruct (String.eqb_spec (status c) "LISTEN").
Qed.

Lemma listening_connection_no_pid c o l tr :
  status c = "LISTEN" → pid_truthy (pid c) = None →
  listening_connection env c (State o l tr)
  = (Returns (), State o (l ++ [listening_socket c "N/A"]) tr).
Proof.
  intros H Hp. unfold listening_connection. rewrite H, Hp. reflexivity.
Qed.

Lemma listening_connection_name c o l tr p n :
  status c = "LISTEN" → pid_truthy (pid c) = Some p →
  os_process_name env p = Returns n →
  listening_connection env c (State o l tr)
  = (Returns (), State o (l ++ [listening_socket c n]) (tr ++ [EvProcessName p])).
Proof.
  intros H Hp Hn. unfold listening_connection. rewrite H, Hp. simpl.
  unfold try_except, Process_name. munfold. simpl. rewrite Hn. reflexivity.
Qed.

Lemma listening_connection_terminated c o l tr p e :
  status c = "LISTEN" → pid_truthy (pid c) = Some p →
  os_process_name env p = Raises e → catches [NoSuchProcess] e = true →
  listening_connection env c (State o l tr)
  = (Returns (), State o (l ++ [listening_socket c "Process terminated"])
                   (tr ++ [EvProcessName p])).
Proof.
  intros H Hp Hn He. unfold listening_connection. rewrite H, Hp.
  unfold try_except, Process_name. munfold. cbn -[catches].
  rewrite Hn. cbn -[catches]. rewrite He. reflexivity.
Qed.

Lemma listening_connection_raises c o l tr p e :
  status c = "LISTEN" → pid_truthy (pid c) = Some p →
  os_process_name env p = Raises e → catches [NoSuchProcess] e = false →
  listening_connection env c (State o l tr)
  = (Raises e, State o l (tr ++ [EvProcessName p])).
Proof.
  intros H Hp Hn He. unfold listening_connection. rewrite H, Hp.
  unfold try_except, Process_name. munfold. cbn -[catches].
  rewrite Hn. cbn -[catches]. rewrite He. reflexivity.
Qed.

(** The name the collector gives to the process of a connection. *)
Definition named (c : sconn) (name : string) : Prop :=
  (pid_truthy (pid c) = None ∧ name = "N/A") ∨
  ∃ p, pid_truthy (pid c) = Some p ∧
    (os_process_name env p = Returns name ∨
     ∃ e, os_process_name env p = Raises e ∧ catches [NoSuchProcess] e = true ∧
          name = "Process terminated").

(** A connection whose name lookup fails with an exception that the inner
    handler does not catch. *)
Definition fails_lookup (c : sconn) (e : exn) : Prop :=
  status c = "LISTEN" ∧
  ∃ p, pid_truthy (pid c) = Some p ∧ os_process_name env p = Raises e ∧
       catches [NoSuchProcess] e = false.

Definition socket_of (c : sconn) (d : value) : Prop :=
  ∃ name, d = listening_socket c name ∧ named c name.

(** A name lookup made for a listening connection whose pid is not 0. *)
Definition lookup_event (conns : list sconn) (ev : event) : Prop :=
  ∃ c p, c ∈ conns ∧ status c = "LISTEN" ∧ pid c = Some p ∧ p ≠ 0 ∧
         ev = EvProcessName p.

Lemma pid_truthy_nonzero p n : pid_truthy p = Some n → p = Some n ∧ n ≠ 0.
Proof.
  destruct p as [m|]; simpl; [|done].
  destruct (Z.eqb_spec m 0); [done|]. by intros [= <-].
Qed.

Lemma lookup_events_cons c conns tr :
  Forall (lookup_event conns) tr → Forall (lookup_event (c :: conns)) tr.
Proof.
  intros Htr. eapply Forall_impl; [exact Htr|].
  intros ev (c' & p & Hin & H). exists c', p. split; [by right|done].
Qed.

Lemma network_loop conns o l tr :
  ∃ tr', Forall (lookup_event conns) tr' ∧
    ((∃ entries,
        for_each conns (listening_connection env) (State o l tr)
        = (Returns (), State o (l ++ entries) (tr ++ tr')) ∧
        Forall2 socket_of (filter (λ c, status c = "LISTEN") conns) entries) ∨
     (∃ c e l',
        for_each conns (listening_connection env) (State o l tr)
        = (Raises e, State o l' (tr ++ tr')) ∧
        c ∈ conns ∧ fails_lookup c e)).
Proof.
  revert l tr. induction conns as [|c conns IH]; intros l tr.
  { exists []. split; [constructor|]. left. exists [].
    rewrite !app_nil_r. split; [done|constructor]. }
  rewrite for_each_cons.
  destruct (decide (status c = "LISTEN")) as [Hl|Hl].
  2:{ rewrite listening_connection_skip by done.
      rewrite filter_cons_False by done.
      destruct (IH l tr) as (tr' & Htr & [(en & E & HF)|(c' & e & l' & E & Hin & Hf)]).
      - exists tr'. split; [by apply lookup_events_cons|]. left. by exists en.
      - exists tr'. split; [by apply lookup_events_cons|]. right. exists c', e, l'.
        split; [done|]. split; [by right|done]. }
  rewrite filter_cons_True by done.
  destruct (pid_truthy (pid c)) as [p|] eqn:Hp.
  2:{ rewrite listening_connection_no_pid by done.
      destruct (IH (l ++ [listening_socket c "N/A"]) tr)
        as (tr' & Htr & [(en & E & HF)|(c' & e & l' & E & Hin & Hf)]).
      - exists tr'. split; [by apply lookup_events_cons|]. left.
        exists (listening_socket c "N/A" :: en).
        rewrite E, <- app_assoc. split; [done|]. constructor; [|done].
        exists "N/A". split; [done|]. by left.
      - exists tr'. split; [by apply lookup_events_cons|]. right. exists c', e, l'.
        split; [done|]. split; [by right|done]. }
  assert (lookup_event (c :: conns) (EvProcessName p)) as Hev.
  { apply pid_truthy_nonzero in Hp as [? ?]. exists c, p. split; [by left|done]. }
  destruct (os_process_name env p) as [n|e] eqn:Hn.
  { rewrite (listening_connection_name c o l tr p n) by done.
    destruct (IH (l ++ [listening_socket c n]) (tr ++ [EvProcessName p]))
      as (tr' & Htr & [(en & E & HF)|(c' & e & l' & E & Hin & Hf)]).
    - exists (EvProcessName p :: tr').
      split; [constructor; [done|by apply lookup_events_cons]|]. left.
      exists (listening_socket c n :: en).
      rewrite E, <- !app_assoc. split; [done|]. constructor; [|done].
      exists n. split; [done|]. right. exists p. split; [done|]. by left.
    - exists (EvProcessName p :: tr').
      split; [constructor; [done|by apply lookup_events_cons]|]. right.
      exists c', e, l'. rewrite E, <- !app_assoc.
      split; [done|]. split; [by right|done]. }
  destruct (catches [NoSuchProcess] e) eqn:He.
  { rewrite (listening_connection_terminated c o l tr p e) by done.
    destruct (IH (l ++ [listening_socket c "Process terminated"])
                 (tr ++ [EvProcessName p]))
      as (tr' & Htr & [(en & E & HF)|(c' & e' & l' & E & Hin & Hf)]).
    - exists (EvProcessName p :: tr').
      split; [constructor; [done|by apply lookup_events_cons]|]. left.
      exists (listening_socket c "Process terminated" :: en).
      rewrite E, <- !app_assoc. split; [done|]. constructor; [|done].
      exists "Process terminated". split; [done|]. right. exists p.
      split; [done|]. right. by exists e.
    - exists (EvProcessName p :: tr').
      split; [constructor; [done|by apply lookup_events_cons]|]. right.
      exists c', e', l'. rewrite E, <- !app_assoc.
      split; [done|]. split; [by right|done]. }
  rewrite (listening_connection_raises c o l tr p e) by done.
  exists [EvProcessName p]. split; [by repeat constructor|]. right.
  exists c, e, l. split; [done|]. split; [by left|].
  split; [done|]. by exists p.
Qed.

(** What the collector returns, and the calls it makes: the error list
    when the enumeration fails or a name lookup fails otherwise than with
    [NoSuchProcess]; else one dictionary for every listening connection,
    in their order. *)
Lemma network_outcome :
  match os_net_connections env with
  | Raises e =>
      run env (get_network_info env) [] = (Returns (network_error e), [EvNetConnections])
  | Returns conns =>
      ∃ tr', Forall (lookup_event conns) tr' ∧
        ((∃ entries,
            run env (get_network_info env) [] = (Returns entries, EvNetConnections :: tr') ∧
            Forall2 socket_of (filter (λ c, status c = "LISTEN") conns) entries) ∨
         (∃ c e,
            run env (get_network_info env) []
            = (Returns (network_error e), EvNetConnections :: tr') ∧
            c ∈ conns ∧ fails_lookup c e))
  end.
Proof.
  unfold run, get_network_info, net_connections.
  destruct (os_net_connections env) as [conns|e] eqn:Hc.
  - destruct (network_loop conns (init env) [] [EvNetConnections])
      as (tr' & Htr & [(en & E & HF)|(c & e & l' & E & Hin & Hf)]).
    + exists tr'. split; [done|]. left. exists en. split; [|done].
      mstep. unfold try_except. rewrite !bind_unfold. cbn -[for_each].
      rewrite bind_unfold, E. reflexivity.
    + exists tr'. split; [done|]. right. exists c, e. split; [|done].
      mstep. unfold try_except. rewrite !bind_unfold. cbn -[for_each catches].
      rewrite bind_unfold, E. rewrite catches_Exception. reflexivity.
  - mstep. unfold try_except. rewrite !bind_unfold. cbn -[catches].
    rewrite catches_Exception. reflexivity.
Qed.
End network.

(** ** Splitting a line *)

Lemma split_length sep s :
  length (PyStr.split sep s) = S (PyStr.count sep s).
Proof.
  induction s as [|c s IH]; simpl; [done|].
  destruct (Ascii.eqb c sep); simpl; [by rewrite IH|].
  destruct (PyStr.split sep s); simpl in *; [done|by rewrite IH].
Qed.

Lemma split_none sep s : PyStr.count sep s = 0%nat → PyStr.split sep s = [s].
Proof.
  induction s as [|c s IH]; simpl; [done|].
  destruct (Ascii.eqb c sep); [done|]. simpl. intros H. by rewrite IH.
Qed.

(** A line with exactly one separator splits into what is before it and
    what is after it. *)
Lemma split_one sep s :
  PyStr.count sep s = 1%nat →
  ∃ a b, PyStr.split sep s = [a; b] ∧ s = a +:+ String sep b ∧
         PyStr.count sep a = 0%nat ∧ PyStr.count sep b = 0%nat.
Proof.
  induction s as [|c s IH]; simpl; [done|].
  destruct (Ascii.eqb_spec c sep) as [->|Hc]; simpl.
  - intros [= H0]. exists "", s. rewrite split_none by done. done.
  - intros H1. destruct (IH H1) as (a & b & E & -> & Ha & Hb).
    exists (String c a), b. rewrite E. simpl.
    destruct (Ascii.eqb_spec c sep); [done|]. by rewrite Ha.
Qed.

(** ** The Linux package collector *)

Definition package (name version : string) : value :=
  VDict [("name", VStr name); ("version", VStr version)].

Lemma read_line_empty s : read_line "" s = (Returns (), s).
Proof. reflexivity. Qed.

Lemma read_line_package line a b o l tr :
  line ≠ "" → PyStr.split PyStr.tab line = [a; b] →
  read_line line (State o l tr) = (Returns (), State o (l ++ [package a b]) tr).
Proof.
  intros Hne E. unfold read_line. destruct line; [done|].
  cbn [PyStr.truthy]. rewrite E. reflexivity.
Qed.

Lemma read_line_malformed line o l tr :
  line ≠ "" → PyStr.count PyStr.tab line ≠ 1%nat →
  ∃ e, exn_cls e = ValueError ∧
       read_line line (State o l tr) = (Raises e, State o l tr).
Proof.
  intros Hne Hc. unfold read_line. destruct line as [|c line]; [done|].
  cbn [PyStr.truthy]. pose proof (split_length PyStr.tab (String c line)) as Hl.
  destruct (PyStr.split PyStr.tab (String c line)) as [|x [|y [|z ws]]];
    cbn [length] in Hl; try (eexists; split; [|reflexivity]; reflexivity).
  congruence.
Qed.

(** A line the loop can read: empty, or with exactly one tab. *)
Definition readable (line : string) : Prop :=
  line = "" ∨ PyStr.count PyStr.tab line = 1%nat.

Global Instance readable_dec line : Decision (readable line).
Proof. unfold readable. apply _. Defined.

(** The package a line gives: none for an empty line. *)
Definition line_package (line : string) : option value :=
  if PyStr.truthy line then
    match PyStr.split PyStr.tab line with
    | [name; version] => Some (package name version)
    | _ => None
    end
  else None.

(** The loop over the lines leaves the trace alone; it returns when every
    line is readable and raises [ValueError] at the first that is not. *)
Lemma read_lines lines o l tr :
  (Forall readable lines ∧
   for_each lines read_line (State o l tr)
   = (Returns (), State o (l ++ omap line_package lines) tr)) ∨
  (Exists (λ line, ¬ readable line) lines ∧
   ∃ e l', exn_cls e = ValueError ∧
           for_each lines read_line (State o l tr) = (Raises e, State o l' tr)).
Proof.
  revert l. induction lines as [|line lines IH]; intros l.
  { left. split; [constructor|]. simpl. by rewrite app_nil_r. }
  rewrite for_each_cons.
  destruct (decide (line = "")) as [->|Hne].
  { rewrite read_line_empty.
    destruct (IH l) as [[HF E]|[HE (e & l' & He & E)]].
    - left. split; [constructor; [by left|done]|]. done.
    - right. split; [by right|]. by exists e, l'. }
  destruct (decide (PyStr.count PyStr.tab line = 1%nat)) as [H1|H1].
  - destruct (split_one _ _ H1) as (a & b & E & _).
    rewrite (read_line_package line a b) by done.
    destruct (IH (l ++ [package a b])) as [[HF E']|[HE (e & l' & He & E')]].
    + left. split; [constructor; [by right|done]|].
      rewrite E', <- app_assoc.
      assert (line_package line = Some (package a b)) as Hline.
      { unfold line_package. rewrite E. by destruct line. }
      cbn [omap list_omap]. by rewrite Hline.
    + right. split; [by right|]. by exists e, l'.
  - destruct (read_line_malformed line o l tr Hne H1) as (e & He & E).
    rewrite E. right. split; [|by exists e, l].
    left. intros [?|?]; done.
Qed.

Section linux_collector.
Variable env : Env.

(** The query tool cannot be used: it is missing, or exits with a return
    code other than 0. *)
Definition unavailable (argv : list string) : Prop :=
  os_launch env argv = NotFound ∨
  ∃ returncode stdout, os_launch env argv = Exited returncode stdout ∧ returncode ≠ 0.

Definition output_lines (stdout : string) : list string :=
  PyStr.split PyStr.newline (PyStr.strip stdout).

Definition package_manager_error : list value :=
  [VDict [("error",
     VStr "Could not determine the package manager (neither dpkg nor rpm)")]].

Lemma subprocess_run_exited {L} argv stdout o (l : L) tr :
  os_launch env argv = Exited 0 stdout →
  subprocess_run env argv (State o l tr)
  = (Returns stdout, State o l (tr ++ [EvRun argv])).
Proof. intros H. unfold subprocess_run. rewrite bind_unfold. simpl. by rewrite H. Qed.

Lemma subprocess_run_unavailable {L} argv o (l : L) tr :
  unavailable argv →
  ∃ e, catches [CalledProcessError; FileNotFoundError] e = true ∧
       subprocess_run env argv (State o l tr)
       = (Raises e, State o l (tr ++ [EvRun argv])).
Proof.
  intros [H|(rc & out & H & Hrc)]; unfold subprocess_run; rewrite bind_unfold;
    simpl; rewrite H.
  - eexists. split; [|reflexivity]. reflexivity.
  - destruct (Z.eqb_spec rc 0); [done|]. eexists. split; [|reflexivity]. reflexivity.
Qed.

Lemma subprocess_run_not_executable {L} argv o (l : L) tr :
  os_launch env argv = NotExecutable →
  ∃ e, exn_cls e = PermissionError ∧
       subprocess_run env argv (State o l tr)
       = (Raises e, State o l (tr ++ [EvRun argv])).
Proof.
  intros H. unfold subprocess_run. rewrite bind_unfold. simpl. rewrite H.
  eexists. split; [|reflexivity]. reflexivity.
Qed.

Lemma query_packages_unavailable argv o l tr :
  unavailable argv →
  ∃ e, catches [CalledProcessError; FileNotFoundError] e = true ∧
       query_packages env argv (State o l tr)
       = (Raises e, State o l (tr ++ [EvRun argv])).
Proof.
  intros H. destruct (subprocess_run_unavailable argv o l tr H) as (e & He & E).
  exists e. split; [done|]. unfold query_packages.
  by erewrite bind_raises by exact E.
Qed.

Lemma query_packages_not_executable argv o l tr :
  os_launch env argv = NotExecutable →
  ∃ e, exn_cls e = PermissionError ∧
       query_packages env argv (State o l tr)
       = (Raises e, State o l (tr ++ [EvRun argv])).
Proof.
  intros H. destruct (subprocess_run_not_executable argv o l tr H) as (e & He & E).
  exists e. split; [done|]. unfold query_packages.
  by erewrite bind_raises by exact E.
Qed.

Lemma query_packages_exited argv stdout o l tr :
  os_launch env argv = Exited 0 stdout →
  (Forall readable (output_lines stdout) ∧
   query_packages env argv (State o l tr)
   = (Returns (l ++ omap line_package (output_lines stdout)),
      State o (l ++ omap line_package (output_lines stdout)) (tr ++ [EvRun argv]))) ∨
  (Exists (λ line, ¬ readable line) (output_lines stdout) ∧
   ∃ e l', exn_cls e = ValueError ∧
           query_packages env argv (State o l tr)
           = (Raises e, State o l' (tr ++ [EvRun argv]))).
Proof.
  intros H. unfold query_packages.
  mstep by exact (subprocess_run_exited argv stdout o l tr H).
  fold (output_lines stdout).
  destruct (read_lines (output_lines stdout) o l (tr ++ [EvRun argv]))
    as [[HF E]|[HE (e & l' & He & E)]].
  - left. split; [done|]. mstep by exact E. reflexivity.
  - right. split; [done|]. exists e, l'. split; [done|].
    by erewrite bind_raises by exact E.
Qed.

Lemma ValueError_not_caught e :
  exn_cls e = ValueError → catches [CalledProcessError; FileNotFoundError] e = false.
Proof. destruct e as [c ?]. simpl. by intros ->. Qed.

Lemma PermissionError_not_caught e :
  exn_cls e = PermissionError → catches [CalledProcessError; FileNotFoundError] e = false.
Proof. destruct e as [c ?]. simpl. by intros ->. Qed.

(** When [dpkg-query] runs and exits with 0, the method does what its
    first [try] block does, and that block makes one external call. *)
Lemma linux_dpkg_exited stdout :
  os_launch env dpkg_argv = Exited 0 stdout →
  run env (get_installed_software_linux env) []
  = run env (query_packages env dpkg_argv) [] ∧
  (run env (get_installed_software_linux env) []).2 = [EvRun dpkg_argv].
Proof.
  intros H. unfold run, get_installed_software_linux. mstep. unfold try_except.
  destruct (query_packages_exited dpkg_argv stdout (init env) [] [] H)
    as [[HF E]|[HE (e & l' & He & E)]]; rewrite E.
  - done.
  - by rewrite (ValueError_not_caught e He).
Qed.

(** When [dpkg-query] cannot be used, the method goes on with [rpm]. *)
Lemma linux_fallback :
  unavailable dpkg_argv →
  run env (get_installed_software_linux env) []
  = let '(r, s) :=
      try_except (query_packages env rpm_argv)
        [CalledProcessError; FileNotFoundError] (λ _, mret package_manager_error)
        (State (init env) [] [EvRun dpkg_argv])
    in (r, trace s).
Proof.
  intros H. unfold run, get_installed_software_linux. mstep.
  destruct (query_packages_unavailable dpkg_argv (init env) [] [] H) as (e & He & E).
  unfold try_except at 1. rewrite E, He. reflexivity.
Qed.

Lemma linux_both_unavailable :
  unavailable dpkg_argv → unavailable rpm_argv →
  run env (get_installed_software_linux env) []
  = (Returns package_manager_error, [EvRun dpkg_argv; EvRun rpm_argv]).
Proof.
  intros H1 H2. rewrite linux_fallback by done.
  destruct (query_packages_unavailable rpm_argv (init env) [] [EvRun dpkg_argv] H2)
    as (e & He & E).
  unfold try_except. rewrite E, He. reflexivity.
Qed.

Lemma installed_software_linux :
  platform_system env = "Linux" →
  run env (installed_software env) ()
  = run env (get_installed_software_linux env) [].
Proof.
  intros H. unfold run, installed_software. mstep. cbn [init os_type].
  rewrite H. cbn [String.eqb Ascii.eqb Bool.eqb]. unfold call. cbn [self trace].
  by destruct (get_installed_software_linux env _) as [r [o l tr]].
Qed.
End linux_collector.

(** ** The Windows package collector *)

(** The package a subkey gives when it has both values. *)
Definition subkey_package (sk : reg_subkey) : option value :=
  match find (λ nv, String.eqb nv.1 "DisplayName") (subkey_values sk),
        find (λ nv, String.eqb nv.1 "DisplayVersion") (subkey_values sk) with
  | Some n, Some v => Some (package n.2 v.2)
  | _, _ => None
  end.

(** The subkeys the loop gets to open, asked for by name: it stops at the
    first that cannot be opened. *)
Fixpoint opened (key : list reg_subkey) (names : list string) : list reg_subkey :=
  match names with
  | [] => []
  | name :: names' =>
      match find (λ sk, String.eqb (subkey_name sk) name) key with
      | Some sk => if subkey_readable sk then sk :: opened key names' else []
      | None => []
      end
  end.

(** The packages read from one uninstall location, and from both. *)
Definition location_packages (env : Env) (path : string) : list value :=
  match hklm env path with
  | Some key => omap subkey_package (opened key (subkey_name <$> key))
  | None => []
  end.

Definition registry_packages (env : Env) : list value :=
  location_packages env "SOFTWARE\Microsoft\Windows\CurrentVersion\Uninstall" ++
  location_packages env "SOFTWARE\WOW6432Node\Microsoft\Windows\CurrentVersion\Uninstall".

Section windows.
Variable env : Env.

Lemma catches_OSError_FileNotFoundError msg :
  catches [OSError] (Exn FileNotFoundError msg) = true.
Proof. reflexivity. Qed.

(** One subkey, opened: its package, if it has one, is appended. *)
Lemma read_values sk o l tr :
  try_finally
    (try_except
       (name ← QueryValueEx_0 sk "DisplayName";
        version ← QueryValueEx_0 sk "DisplayVersion";
        append (VDict [("name", VStr name); ("version", VStr version)]))
       [OSError] (λ _, mret ()))
    (Close sk) (State o l tr)
  = (Returns (), State o (l ++ option_list (subkey_package sk)) tr).
Proof.
  unfold try_finally, try_except, subkey_package, QueryValueEx_0.
  rewrite !bind_unfold.
  destruct (find (λ nv, String.eqb nv.1 "DisplayName") (subkey_values sk)) as [n|];
    cbn -[catches find].
  - rewrite bind_unfold.
    destruct (find (λ nv, String.eqb nv.1 "DisplayVersion") (subkey_values sk))
      as [v|]; cbn -[find]; [done|].
    by rewrite app_nil_r.
  - destruct (find (λ nv, String.eqb nv.1 "DisplayVersion") (subkey_values sk));
      cbn -[find]; by rewrite app_nil_r.
Qed.

Definition names_at (key : list reg_subkey) (indices : list nat) : list string :=
  omap (λ i, subkey_name <$> key !! i) indices.

Lemma read_subkeys key indices o l tr :
  Forall (λ i, (i < length key)%nat) indices →
  ∃ r, for_each indices (read_subkey key) (State o l tr)
       = (r, State o (l ++ omap subkey_package (opened key (names_at key indices))) tr)
     ∧ match r with
       | Returns _ => True
       | Raises e => catches [OSError] e = true
       end.
Proof.
  intros Hi. revert l. induction Hi as [|i indices Hlt _ IH]; intros l.
  { exists (Returns ()). simpl. by rewrite app_nil_r. }
  rewrite for_each_cons. unfold read_subkey at 1, EnumKey, OpenKey.
  destruct (lookup_lt_is_Some_2 key i Hlt) as [sk Hsk].
  unfold names_at. cbn [omap list_omap]. rewrite Hsk. cbn [fmap option_fmap option_map].
  fold (names_at key indices). cbn [opened].
  rewrite bind_unfold. cbn [mret M_ret].
  rewrite bind_unfold.
  destruct (find (λ sk0, String.eqb (subkey_name sk0) (subkey_name sk)) key)
    as [sk'|]; cbn [raise mret M_ret].
  2:{ eexists. split; [by rewrite app_nil_r|]. reflexivity. }
  destruct (subkey_readable sk'); cbn [raise mret M_ret].
  2:{ eexists. split; [by rewrite app_nil_r|]. reflexivity. }
  rewrite read_values. destruct (IH (l ++ option_list (subkey_package sk'))) as (r & E & Hr).
  exists r. split; [|done]. rewrite E. f_equal. f_equal.
  rewrite <- app_assoc. f_equal. cbn [omap list_omap].
  by destruct (subkey_package sk').
Qed.

Lemma names_at_seq key : names_at key (seq 0 (length key)) = subkey_name <$> key.
Proof.
  unfold names_at.
  assert (∀ pre, omap (λ i, subkey_name <$> (pre ++ key) !! i)
                   (seq (length pre) (length key)) = subkey_name <$> key) as H.
  { induction key as [|sk key IH]; intros pre; [done|].
    cbn [length seq omap list_omap].
    rewrite list_lookup_middle by done. cbn [fmap option_fmap option_map].
    rewrite fmap_cons. f_equal.
    specialize (IH (pre ++ [sk])). rewrite <- app_assoc, length_app in IH. simpl in IH.
    by rewrite Nat.add_1_r in IH. }
  apply (H []).
Qed.

Lemma read_uninstall_path_outcome path o l tr :
  read_uninstall_path env path (State o l tr)
  = (Returns (), State o (l ++ location_packages env path) tr).
Proof.
  unfold read_uninstall_path, location_packages, try_except, OpenKey_HKLM, QueryInfoKey_0.
  rewrite bind_unfold.
  destruct (hklm env path) as [key|]; cbn [raise mret M_ret].
  - destruct (read_subkeys key (seq 0 (length key)) o l tr) as (r & E & Hr).
    { apply Forall_forall. intros i Hi%elem_of_seq. lia. }
    rewrite names_at_seq in E. rewrite E. destruct r as [[]|e]; [done|].
    by rewrite Hr.
  - rewrite catches_OSError_FileNotFoundError. by rewrite app_nil_r.
Qed.

(** The collector always returns: the registry packages, as a set. *)
Lemma windows_outcome :
  run env (get_installed_software_windows env) []
  = (Returns (dict <$> elements
       (list_to_set (dict_items <$> registry_packages env)
          : gset (list (string * value)))), []).
Proof.
  unfold run, get_installed_software_windows. mstep. unfold uninstall_paths.
  rewrite bind_unfold, for_each_cons, read_uninstall_path_outcome. cbv beta iota.
  rewrite for_each_cons, read_uninstall_path_outcome. reflexivity.
Qed.
End windows.

Lemma subkey_package_is_package sk d :
  subkey_package sk = Some d → ∃ name version, d = package name version.
Proof.
  unfold subkey_package.
  destruct (find _ _) as [n|]; [|done]. destruct (find _ _) as [v|]; [|done].
  intros [= <-]. by exists n.2, v.2.
Qed.

Lemma registry_packages_are_packages env d :
  d ∈ registry_packages env → ∃ name version, d = package name version.
Proof.
  unfold registry_packages, location_packages.
  intros [H|H]%elem_of_app;
    (destruct (hklm env _); [|by apply not_elem_of_nil in H]);
    apply list_elem_of_omap in H as (sk & _ & H);
    by apply subkey_package_is_package in H.
Qed.

Lemma dict_items_package name version :
  dict (dict_items (package name version)) = package name version.
Proof. reflexivity. Qed.

(** The pair a package dictionary is compared by. *)
Definition name_version (d : value) : option value * option value :=
  (get "name" d, get "version" d).

(** C5: the list the Windows collector returns has no two equal entries,
    and no two entries with the same name and version, whatever was read
    from the two uninstall locations; its entries are the packages read
    from them. *)
Theorem windows_packages_unique (env : Env) :
  ∃ out,
    run env (get_installed_software_windows env) [] = (Returns out, []) ∧
    NoDup out ∧
    NoDup (name_version <$> out) ∧
    ∀ d, d ∈ out ↔ d ∈ registry_packages env.
Proof.
  eexists. split; [apply windows_outcome|].
  set (S := list_to_set (dict_items <$> registry_packages env)
            : gset (list (string * value))).
  assert (∀ t, t ∈ elements S →
            ∃ n v, t = dict_items (package n v) ∧ package n v ∈ registry_packages env)
    as HS.
  { intros t Ht. apply elem_of_elements, elem_of_list_to_set in Ht.
    apply list_elem_of_fmap in Ht as (p & -> & Hp).
    destruct (registry_packages_are_packages env p Hp) as (n & v & ->).
    by exists n, v. }
  assert (∀ x y, x ∈ elements S → y ∈ elements S →
            name_version (dict x) = name_version (dict y) → x = y) as Hinj.
  { intros x y (n & v & -> & _)%HS (n' & v' & -> & _)%HS.
    rewrite !dict_items_package. by intros [= -> ->]. }
  split; [|split].
  - apply NoDup_fmap_2_strong; [|apply NoDup_elements].
    intros x y Hx Hy E. apply Hinj; [done..|]. by rewrite E.
  - rewrite <- list_fmap_compose.
    apply NoDup_fmap_2_strong; [|apply NoDup_elements]. apply Hinj.
  - intros d. rewrite list_elem_of_fmap. split.
    + intros (t & -> & (n & v & -> & Hin)%HS). by rewrite dict_items_package.
    + intros Hd. destruct (registry_packages_are_packages env d Hd) as (n & v & ->).
      exists (dict_items (package n v)). split; [done|].
      apply elem_of_elements, elem_of_list_to_set, list_elem_of_fmap. eauto.
Qed.

(** The third end-to-end scenario: both locations hold the same record. *)
Definition tool_subkey : reg_subkey :=
  {| subkey_name := "Tool"; subkey_readable := true;
     subkey_values := [("DisplayName", "Tool"); ("DisplayVersion", "1.0")] |}.

Definition windows_env : Env :=
  {| platform_system := "Windows"; platform_release := "10";
     platform_version := "10.0.19045"; platform_machine := "AMD64";
     socket_gethostname := "host"; utcnow_isoformat := "2024-01-01T00:00:00";
     os_launch := λ _, NotFound;
     hklm := λ path, if bool_decide (path ∈ uninstall_paths) then Some [tool_subkey] else None;
     os_net_connections := Returns [];
     os_process_name := λ _, Raises (Exn NoSuchProcess "process no longer exists") |}.

Example windows_same_record_twice :
  registry_packages windows_env = [package "Tool" "1.0"; package "Tool" "1.0"] ∧
  run windows_env (get_installed_software_windows windows_env) []
  = (Returns [package "Tool" "1.0"], []).
Proof. split; vm_compute; reflexivity. Qed.

(** ** Claims about the listening-socket collector *)

Global Instance SocketKind_eq_dec : EqDecision SocketKind.
Proof. solve_decision. Defined.

Lemma protocol_of_kind (k : SocketKind) :
  (if String.eqb (SocketKind_name k) "SOCK_STREAM" then "TCP" else "UDP")
  = (if decide (k = SOCK_STREAM) then "TCP" else "UDP").
Proof. by destruct k. Qed.

Lemma catches_one (c : exn_class) (e : exn) :
  catches [c] e = issubclass (exn_cls e) c.
Proof. unfold catches. simpl. by rewrite orb_false_r. Qed.

Lemma Forall2_filter_l {A B} (P : A → Prop) `{!∀ x, Decision (P x)}
    (R : A → B → Prop) (l : list A) (k : list B) :
  Forall2 R (filter P l) k → Forall2 (λ x y, P x ∧ R x y) (filter P l) k.
Proof.
  intros HR. assert (Forall P (filter P l)) as HP.
  { apply Forall_forall. by intros x [? _]%list_elem_of_filter. }
  induction HR as [|x y l' k' Hxy _ IH]; [constructor|].
  apply Forall_cons in HP as [Hx HP]. constructor; [done|by apply IH].
Qed.

(** A lookup failure the inner handler does not catch, in the terms of the
    connection record. *)
Lemma fails_lookup_pid env c e :
  fails_lookup env c e →
  status c = "LISTEN" ∧
  ∃ p, pid c = Some p ∧ p ≠ 0 ∧ os_process_name env p = Raises e ∧
       issubclass (exn_cls e) NoSuchProcess = false.
Proof.
  intros (Hl & p & Hp & Hn & He). split; [done|]. exists p.
  apply pid_truthy_nonzero in Hp as [? ?]. by rewrite <- catches_one.
Qed.

(** The outcome of the collector when the enumeration answers. *)
Lemma network_outcome_conns env conns :
  os_net_connections env = Returns conns →
  ∃ out tr,
    run env (get_network_info env) [] = (Returns out, EvNetConnections :: tr) ∧
    Forall (lookup_event conns) tr ∧
    ((∃ c e, c ∈ conns ∧ fails_lookup env c e ∧ out = network_error e) ∨
     Forall2 (socket_of env) (filter (λ c, status c = "LISTEN") conns) out).
Proof.
  intros Hc. pose proof (network_outcome env) as H. rewrite Hc in H.
  destruct H as (tr & Htr & [(en & E & HF)|(c & e & E & Hin & Hf)]).
  - exists en, tr. split; [done|]. split; [done|]. by right.
  - exists (network_error e), tr. split; [done|]. split; [done|]. left.
    by exists c, e.
Qed.

(** C7: when the enumeration answers, the collector returns one entry for
    every connection whose status is LISTEN, in their order, and none for
    any other connection; the entry has the port and the address of the
    connection, and its protocol is "TCP" exactly when the socket type is
    SOCK_STREAM, "UDP" otherwise.  The one other outcome is the error list,
    returned when a name lookup fails with an exception other than
    NoSuchProcess. *)
Theorem listening_sockets_only (env : Env) (conns : list sconn) :
  os_net_connections env = Returns conns →
  ∃ out,
    (run env (get_network_info env) []).1 = Returns out ∧
    ((∃ c e, c ∈ conns ∧ fails_lookup env c e ∧ out = network_error e) ∨
     Forall2 (λ c d,
        status c = "LISTEN" ∧
        get "port" d = Some (VInt (port (laddr c))) ∧
        get "address" d = Some (VStr (ip (laddr c))) ∧
        get "protocol" d
        = Some (VStr (if decide (type_ c = SOCK_STREAM) then "TCP" else "UDP")))
       (filter (λ c, status c = "LISTEN") conns) out).
Proof.
  intros Hc. destruct (network_outcome_conns env conns Hc) as (out & tr & E & _ & H).
  exists out. rewrite E. split; [done|]. destruct H as [H|H]; [by left|right].
  apply Forall2_filter_l in H. eapply Forall2_impl; [exact H|].
  intros c d (Hl & name & -> & _). split; [done|]. repeat split.
  simpl. by rewrite protocol_of_kind.
Qed.

(** An environment for the examples: a Linux host whose socket table holds
    the given connections. *)
Definition linux_env (launch : list string → launch) (conns : outcome (list sconn))
    (names : Z → outcome string) : Env :=
  {| platform_system := "Linux"; platform_release := "6.1.0";
     platform_version := "#1 SMP"; platform_machine := "x86_64";
     socket_gethostname := "host"; utcnow_isoformat := "2024-01-01T00:00:00";
     os_launch := launch;
     hklm := λ _, None;
     os_net_connections := conns;
     os_process_name := names |}.

Definition conn (kind : SocketKind) (address : string) (p : Z) (st : string)
    (owner : option Z) : sconn :=
  {| type_ := kind; laddr := {| ip := address; port := p |}; status := st;
     pid := owner |}.

Definition sample_conns : list sconn :=
  [conn SOCK_STREAM "0.0.0.0" 22 "LISTEN" (Some 812);
   conn SOCK_STREAM "10.0.0.5" 22 "ESTABLISHED" (Some 900);
   conn SOCK_DGRAM "::" 53 "LISTEN" None;
   conn SOCK_STREAM "127.0.0.1" 631 "LISTEN" (Some 77)].

Definition sample_names (p : Z) : outcome string :=
  if p =? 812 then Returns "sshd"
  else Raises (Exn NoSuchProcess "process no longer exists").

Definition sample_env : Env :=
  linux_env (λ _, NotFound) (Returns sample_conns) sample_names.

Lemma listening_sockets_only_witness :
  os_net_connections sample_env = Returns sample_conns ∧
  ∃ out,
    (run sample_env (get_network_info sample_env) []).1 = Returns out ∧
    ((∃ c e, c ∈ sample_conns ∧ fails_lookup sample_env c e ∧ out = network_error e) ∨
     Forall2 (λ c d,
        status c = "LISTEN" ∧
        get "port" d = Some (VInt (port (laddr c))) ∧
        get "address" d = Some (VStr (ip (laddr c))) ∧
        get "protocol" d
        = Some (VStr (if decide (type_ c = SOCK_STREAM) then "TCP" else "UDP")))
       (filter (λ c, status c = "LISTEN") sample_conns) out).
Proof.
  split; [reflexivity|].
  apply (listening_sockets_only sample_env sample_conns). reflexivity.
Defined.

Example sample_listening_sockets :
  run sample_env (get_network_info sample_env) []
  = (Returns [listening_socket (conn SOCK_STREAM "0.0.0.0" 22 "LISTEN" (Some 812)) "sshd";
              listening_socket (conn SOCK_DGRAM "::" 53 "LISTEN" None) "N/A";
              listening_socket (conn SOCK_STREAM "127.0.0.1" 631 "LISTEN" (Some 77))
                "Process terminated"],
     [EvNetConnections; EvProcessName 812; EvProcessName 77]).
Proof. reflexivity. Qed.

(** C6 as the specification states it: a connection with no pid is named
    "N/A", and one that carries a pid whose process has exited is named
    "Process terminated". *)
Definition sentinels_as_stated (env : Env) : Prop :=
  ∀ conns out,
    os_net_connections env = Returns conns →
    (run env (get_network_info env) []).1 = Returns out →
    Forall2 (λ c d,
       (pid c = None → get "process_name" d = Some (VStr "N/A")) ∧
       (∀ p e, pid c = Some p → os_process_name env p = Raises e →
               exn_cls e = NoSuchProcess →
               get "process_name" d = Some (VStr "Process terminated")))
      (filter (λ c, status c = "LISTEN") conns) out.

(** A listening connection that carries the pid 0, on a host where no
    process has that pid. *)
Definition pid_zero_env : Env :=
  linux_env (λ _, NotFound)
    (Returns [conn SOCK_STREAM "0.0.0.0" 445 "LISTEN" (Some 0)])
    (λ _, Raises (Exn NoSuchProcess "process no longer exists")).

(** C6, counterexample: the connection carries a pid, 0, and looking that
    pid up raises NoSuchProcess, yet the entry is named "N/A": the pid is
    tested for truth, so 0 counts as no pid and the lookup is not made. *)
Lemma pid_zero_named_na : ¬ sentinels_as_stated pid_zero_env.
Proof.
  intros H.
  specialize (H [conn SOCK_STREAM "0.0.0.0" 445 "LISTEN" (Some 0)]
                [listening_socket (conn SOCK_STREAM "0.0.0.0" 445 "LISTEN" (Some 0)) "N/A"]
                eq_refl eq_refl).
  apply Forall2_cons_1 in H as [[_ H] _].
  specialize (H 0 (Exn NoSuchProcess "process no longer exists") eq_refl eq_refl eq_refl).
  discriminate H.
Qed.

Lemma socket_of_name env c d :
  socket_of env c d →
  (pid c = None ∨ pid c = Some 0 → get "process_name" d = Some (VStr "N/A")) ∧
  (∀ p e, pid c = Some p → p ≠ 0 → os_process_name env p = Raises e →
          exn_cls e = NoSuchProcess →
          get "process_name" d = Some (VStr "Process terminated")) ∧
  (∀ p n, pid c = Some p → p ≠ 0 → os_process_name env p = Returns n →
          get "process_name" d = Some (VStr n)).
Proof.
  intros (name & -> & Hname). cbn [get listening_socket dict_get String.eqb Ascii.eqb Bool.eqb].
  destruct Hname as [[Hp ->]|(p & Hp & Hn)].
  - split; [done|]. destruct (pid c) as [q|] eqn:Hq; [|by split].
    simpl in Hp. destruct (q =? 0) eqn:Hq0; [|done].
    apply Z.eqb_eq in Hq0 as ->. split; intros ? ? [= <-]; done.
  - apply pid_truthy_nonzero in Hp as [Hp Hp0]. rewrite Hp.
    split; [by intros [|[= ->]]|].
    split.
    + intros p' e [= <-] _ He Hcls. destruct Hn as [Hn|(e' & Hn & _ & ->)]; [congruence|done].
    + intros p' n [= <-] _ Hr. destruct Hn as [Hn|(e' & Hn & _)]; congruence.
Qed.

(** C6, amended: a connection with no pid, or with the pid 0, is named
    "N/A"; one with a pid other than 0 whose lookup raises NoSuchProcess is
    named "Process terminated"; one whose lookup answers is named by the
    answer.  So neither sentinel is given under the other's condition, and
    an entry's name depends on its own connection only: a lookup that
    raises NoSuchProcess changes no other entry and drops none.  The one
    other outcome is the error list, returned when a lookup fails with an
    exception other than NoSuchProcess. *)
Theorem process_name_sentinels (env : Env) (conns : list sconn) :
  os_net_connections env = Returns conns →
  ∃ out,
    (run env (get_network_info env) []).1 = Returns out ∧
    ((∃ c e, c ∈ conns ∧ fails_lookup env c e ∧ out = network_error e) ∨
     Forall2 (λ c d,
        (pid c = None ∨ pid c = Some 0 →
         get "process_name" d = Some (VStr "N/A") ∧
         get "process_name" d ≠ Some (VStr "Process terminated")) ∧
        (∀ p e, pid c = Some p → p ≠ 0 → os_process_name env p = Raises e →
                exn_cls e = NoSuchProcess →
                get "process_name" d = Some (VStr "Process terminated") ∧
                get "process_name" d ≠ Some (VStr "N/A")) ∧
        (∀ p n, pid c = Some p → p ≠ 0 → os_process_name env p = Returns n →
                get "process_name" d = Some (VStr n)))
       (filter (λ c, status c = "LISTEN") conns) out).
Proof.
  intros Hc. destruct (network_outcome_conns env conns Hc) as (out & tr & E & _ & H).
  exists out. rewrite E. split; [done|]. destruct H as [H|H]; [by left|right].
  eapply Forall2_impl; [exact H|].
  intros c d (Hna & Hterm & Hname)%socket_of_name. split; [|split].
  - intros Hp. rewrite (Hna Hp). by split.
  - intros p e Hp Hp0 Hn He. rewrite (Hterm p e Hp Hp0 Hn He). by split.
  - done.
Qed.

Lemma process_name_sentinels_witness :
  os_net_connections sample_env = Returns sample_conns ∧
  ∃ out,
    (run sample_env (get_network_info sample_env) []).1 = Returns out ∧
    ((∃ c e, c ∈ sample_conns ∧ fails_lookup sample_env c e ∧ out = network_error e) ∨
     Forall2 (λ c d,
        (pid c = None ∨ pid c = Some 0 →
         get "process_name" d = Some (VStr "N/A") ∧
         get "process_name" d ≠ Some (VStr "Process terminated")) ∧
        (∀ p e, pid c = Some p → p ≠ 0 → os_process_name sample_env p = Raises e →
                exn_cls e = NoSuchProcess →
                get "process_name" d = Some (VStr "Process terminated") ∧
                get "process_name" d ≠ Some (VStr "N/A")) ∧
        (∀ p n, pid c = Some p → p ≠ 0 → os_process_name sample_env p = Returns n →
                get "process_name" d = Some (VStr n)))
       (filter (λ c, status c = "LISTEN") sample_conns) out).
Proof.
  split; [reflexivity|].
  apply (process_name_sentinels sample_env sample_conns). reflexivity.
Defined.

(** No entry can be made for a connection whose lookup fails otherwise
    than with NoSuchProcess. *)
Lemma fails_lookup_no_socket env c e d :
  fails_lookup env c e → ¬ socket_of env c d.
Proof.
  intros (_ & p & Hp & Hn & He) (name & _ & [[Hp' _]|(p' & Hp' & H)]); [congruence|].
  assert (p' = p) as -> by congruence.
  destruct H as [H|(e' & H & He' & _)]; congruence.
Qed.

(** C9: when the name lookup of a listening connection fails with an
    exception other than NoSuchProcess (AccessDenied, say), the collector
    returns the error list and nothing else: one dictionary with the key
    "error", whatever entries were collected before the failure.  The
    exception reported is that of a lookup that failed this way. *)
Theorem lookup_failure_replaces_result (env : Env) (conns : list sconn)
    (c : sconn) (p : Z) (e : exn) :
  os_net_connections env = Returns conns →
  c ∈ conns → status c = "LISTEN" → pid c = Some p → p ≠ 0 →
  os_process_name env p = Raises e →
  issubclass (exn_cls e) NoSuchProcess = false →
  ∃ c' e',
    (run env (get_network_info env) []).1
    = Returns [VDict [("error",
        VStr ("Error getting network information: " +:+ exn_str e'))]] ∧
    c' ∈ conns ∧ fails_lookup env c' e'.
Proof.
  intros Hc Hin Hl Hp Hp0 Hn He.
  destruct (network_outcome_conns env conns Hc) as (out & tr & E & _ & H).
  rewrite E. destruct H as [(c' & e' & Hin' & Hf & ->)|H].
  { by exists c', e'. }
  exfalso. assert (c ∈ filter (λ c, status c = "LISTEN") conns) as Hcf.
  { by apply list_elem_of_filter. }
  apply list_elem_of_lookup in Hcf as [i Hi].
  destruct (Forall2_lookup_l _ _ _ _ _ H Hi) as (d & _ & Hd).
  apply (fails_lookup_no_socket env c e d); [|done].
  split; [done|]. exists p. rewrite Hp, catches_one. cbn [pid_truthy].
  by destruct (Z.eqb_spec p 0).
Qed.

(** A socket table whose second listening connection belongs to a process
    whose name may not be read. *)
Definition denied_conns : list sconn :=
  [conn SOCK_STREAM "0.0.0.0" 22 "LISTEN" (Some 812);
   conn SOCK_STREAM "0.0.0.0" 80 "LISTEN" (Some 1)].

Definition denied_names (p : Z) : outcome string :=
  if p =? 812 then Returns "sshd" else Raises (Exn AccessDenied "(pid=1)").

Definition denied_env : Env :=
  linux_env (λ _, NotFound) (Returns denied_conns) denied_names.

Lemma lookup_failure_replaces_result_witness :
  os_net_connections denied_env = Returns denied_conns ∧
  os_process_name denied_env 1 = Raises (Exn AccessDenied "(pid=1)") ∧
  ∃ c' e',
    (run denied_env (get_network_info denied_env) []).1
    = Returns [VDict [("error",
        VStr ("Error getting network information: " +:+ exn_str e'))]] ∧
    c' ∈ denied_conns ∧ fails_lookup denied_env c' e'.
Proof.
  split; [reflexivity|]. split; [reflexivity|].
  apply (lookup_failure_replaces_result denied_env denied_conns
           (conn SOCK_STREAM "0.0.0.0" 80 "LISTEN" (Some 1)) 1
           (Exn AccessDenied "(pid=1)")).
  - reflexivity.
  - right. left.
  - reflexivity.
  - reflexivity.
  - lia.
  - reflexivity.
  - reflexivity.
Defined.

Example denied_lookup_drops_collected :
  run denied_env (get_network_info denied_env) []
  = (Returns [VDict [("error",
       VStr "Error getting network information: (pid=1)")]],
     [EvNetConnections; EvProcessName 812; EvProcessName 1]).
Proof. reflexivity. Qed.

(** C10: the collector never looks up the name of pid 0: every lookup it
    makes is for a listening connection whose pid is not 0.  A listening
    connection whose pid is 0 is named "N/A", as one with no pid is. *)
Theorem pid_zero_not_resolved (env : Env) (conns : list sconn) :
  os_net_connections env = Returns conns →
  ∃ out tr,
    run env (get_network_info env) [] = (Returns out, EvNetConnections :: tr) ∧
    (EvProcessName 0 ∉ EvNetConnections :: tr) ∧
    Forall (λ ev, ∃ c p, c ∈ conns ∧ status c = "LISTEN" ∧ pid c = Some p ∧
                         p ≠ 0 ∧ ev = EvProcessName p) tr ∧
    ((∃ c e, c ∈ conns ∧ fails_lookup env c e ∧ out = network_error e) ∨
     Forall2 (λ c d,
        pid c = Some 0 ∨ pid c = None →
        get "process_name" d = Some (VStr "N/A"))
       (filter (λ c, status c = "LISTEN") conns) out).
Proof.
  intros Hc. destruct (network_outcome_conns env conns Hc) as (out & tr & E & Htr & H).
  exists out, tr. split; [done|]. split; [|split; [done|]].
  - apply not_elem_of_cons. split; [done|]. intros Hin.
    rewrite Forall_forall in Htr. destruct (Htr _ Hin) as (c & p & _ & _ & _ & Hp0 & [= <-]).
    done.
  - destruct H as [H|H]; [by left|right]. eapply Forall2_impl; [exact H|].
    intros c d (Hna & _)%socket_of_name [Hp|Hp]; apply Hna; auto.
Qed.

Definition pid_zero_conns : list sconn :=
  [conn SOCK_STREAM "0.0.0.0" 445 "LISTEN" (Some 0);
   conn SOCK_STREAM "0.0.0.0" 22 "LISTEN" (Some 812)].

Definition pid_zero_sample_env : Env :=
  linux_env (λ _, NotFound) (Returns pid_zero_conns) sample_names.

Lemma pid_zero_not_resolved_witness :
  os_net_connections pid_zero_sample_env = Returns pid_zero_conns ∧
  ∃ out tr,
    run pid_zero_sample_env (get_network_info pid_zero_sample_env) []
    = (Returns out, EvNetConnections :: tr) ∧
    (EvProcessName 0 ∉ EvNetConnections :: tr) ∧
    Forall (λ ev, ∃ c p, c ∈ pid_zero_conns ∧ status c = "LISTEN" ∧ pid c = Some p ∧
                         p ≠ 0 ∧ ev = EvProcessName p) tr ∧
    ((∃ c e, c ∈ pid_zero_conns ∧ fails_lookup pid_zero_sample_env c e ∧
             out = network_error e) ∨
     Forall2 (λ c d,
        pid c = Some 0 ∨ pid c = None →
        get "process_name" d = Some (VStr "N/A"))
       (filter (λ c, status c = "LISTEN") pid_zero_conns) out).
Proof.
  split; [reflexivity|].
  apply (pid_zero_not_resolved pid_zero_sample_env pid_zero_conns). reflexivity.
Defined.

Example pid_zero_sample :
  run pid_zero_sample_env (get_network_info pid_zero_sample_env) []
  = (Returns [listening_socket (conn SOCK_STREAM "0.0.0.0" 445 "LISTEN" (Some 0)) "N/A";
              listening_socket (conn SOCK_STREAM "0.0.0.0" 22 "LISTEN" (Some 812)) "sshd"],
     [EvNetConnections; EvProcessName 812]).
Proof. reflexivity. Qed.

(** ** Claims about the Linux package collector *)

Lemma dpkg_rpm_differ : EvRun rpm_argv ≠ EvRun dpkg_argv.
Proof. discriminate. Qed.

Lemma not_readable line :
  ¬ readable line ↔ line ≠ "" ∧ PyStr.count PyStr.tab line ≠ 1%nat.
Proof. unfold readable. split; [intros H; split; intros ?; apply H; auto|intros [? ?] [?|?]; done]. Qed.

(** Every launch is one of: exited with 0, not executable, unavailable. *)
Lemma launch_cases env argv :
  (∃ stdout, os_launch env argv = Exited 0 stdout) ∨
  os_launch env argv = NotExecutable ∨
  unavailable env argv.
Proof.
  unfold unavailable. destruct (os_launch env argv) as [| |rc out] eqn:E; auto.
  destruct (decide (rc = 0)) as [->|?]; eauto 10.
Qed.

(** What a query adds to the trace: its own launch. *)
Lemma query_packages_trace env argv o l tr :
  ∃ r l', query_packages env argv (State o l tr)
          = (r, State o l' (tr ++ [EvRun argv])).
Proof.
  destruct (launch_cases env argv) as [[out H]|[H|H]].
  - destruct (query_packages_exited env argv out o l tr H)
      as [[_ E]|[_ (e & l' & _ & E)]]; eauto.
  - destruct (query_packages_not_executable env argv o l tr H) as (e & _ & E); eauto.
  - destruct (query_packages_unavailable env argv o l tr H) as (e & _ & E); eauto.
Qed.

(** The external calls of the Linux collector: [rpm] is launched exactly
    when [dpkg-query] is unavailable. *)
Lemma linux_trace env :
  (unavailable env dpkg_argv ∧
   (run env (get_installed_software_linux env) []).2 = [EvRun dpkg_argv; EvRun rpm_argv]) ∨
  (¬ unavailable env dpkg_argv ∧
   (run env (get_installed_software_linux env) []).2 = [EvRun dpkg_argv]).
Proof.
  destruct (launch_cases env dpkg_argv) as [[out H]|[H|H]].
  - right. split; [|by apply (linux_dpkg_exited env out)].
    intros [H'|(rc & out' & H' & Hrc)]; congruence.
  - right. split; [intros [H'|(rc & out' & H' & Hrc)]; congruence|].
    unfold run, get_installed_software_linux. mstep. unfold try_except.
    destruct (query_packages_not_executable env dpkg_argv (init env) [] [] H)
      as (e & He & E).
    by rewrite E, (PermissionError_not_caught e He).
  - left. split; [done|]. rewrite linux_fallback by done. unfold try_except.
    destruct (query_packages_trace env rpm_argv (init env) [] [EvRun dpkg_argv])
      as (r & l' & E).
    rewrite E. destruct r as [a|e]; [done|]. by destruct (catches _ e).
Qed.

(** C3: when [dpkg-query] exits with 0 and its output is empty (or blank),
    the collector returns the empty list after that one launch; and [rpm]
    is launched exactly when [dpkg-query] is missing or exits with another
    return code. *)
Theorem empty_dpkg_output_is_final (env : Env) :
  (∀ stdout,
     os_launch env dpkg_argv = Exited 0 stdout → PyStr.strip stdout = "" →
     run env (get_installed_software_linux env) [] = (Returns [], [EvRun dpkg_argv])) ∧
  (EvRun rpm_argv ∈ (run env (get_installed_software_linux env) []).2 ↔
   os_launch env dpkg_argv = NotFound ∨
   ∃ returncode stdout,
     os_launch env dpkg_argv = Exited returncode stdout ∧ returncode ≠ 0).
Proof.
  split.
  - intros stdout H Hs. destruct (linux_dpkg_exited env stdout H) as [-> _].
    unfold run. destruct (query_packages_exited env dpkg_argv stdout (init env) [] [] H)
      as [[_ E]|[HE _]].
    + rewrite E. unfold output_lines. by rewrite Hs.
    + unfold output_lines in HE. rewrite Hs in HE. simpl in HE.
      apply Exists_cons in HE as [HE|HE%Exists_nil]; [|done].
      exfalso. apply HE. by left.
  - fold (unavailable env dpkg_argv).
    destruct (linux_trace env) as [[Hu ->]|[Hu ->]].
    + split; [done|]. intros _. right. left.
    + split; [|done]. intros [?|Hin%elem_of_nil]%elem_of_cons; [|done].
      by destruct dpkg_rpm_differ.
Qed.

Definition empty_dpkg_env : Env :=
  linux_env (λ argv, if bool_decide (argv = dpkg_argv) then Exited 0 "" else NotFound)
    (Returns []) sample_names.

Lemma empty_dpkg_output_is_final_witness :
  os_launch empty_dpkg_env dpkg_argv = Exited 0 "" ∧
  run empty_dpkg_env (get_installed_software_linux empty_dpkg_env) []
  = (Returns [], [EvRun dpkg_argv]).
Proof.
  split; [reflexivity|].
  apply (proj1 (empty_dpkg_output_is_final empty_dpkg_env) ""); reflexivity.
Defined.


Definition tab_line (name version : string) : string :=
  name +:+ String PyStr.tab version.

Definition unlines (ls : list string) : string :=
  fold_right (λ line rest, line +:+ String PyStr.newline rest) "" ls.

(** [dpkg-query] lists two packages; [rpm] is also there and lists one. *)
Definition dpkg_env : Env :=
  linux_env
    (λ argv,
       if bool_decide (argv = dpkg_argv) then
         Exited 0 (unlines [tab_line "bash" "5.1-6"; tab_line "zsh" "5.8-6"])
       else if bool_decide (argv = rpm_argv) then
         Exited 0 (unlines [tab_line "rpm-only" "1.0-1"])
       else NotFound)
    (Returns sample_conns) sample_names.


Example dpkg_packages :
  run dpkg_env (get_installed_software_linux dpkg_env) []
  = (Returns [package "bash" "5.1-6"; package "zsh" "5.8-6"], [EvRun dpkg_argv]).
Proof. reflexivity. Qed.

(** The second end-to-end scenario: no [dpkg-query], and [rpm] lists one
    package. *)
Definition rpm_env : Env :=
  linux_env
    (λ argv,
       if bool_decide (argv = rpm_argv) then Exited 0 (unlines [tab_line "bash" "5.1-6"])
       else NotFound)
    (Returns sample_conns) sample_names.

Example rpm_packages :
  run rpm_env (get_installed_software_linux rpm_env) []
  = (Returns [package "bash" "5.1-6"], [EvRun dpkg_argv; EvRun rpm_argv]).
Proof. reflexivity. Qed.

(** C1: a line of a successful query's output that is not empty and does
    not have exactly one tab makes the collector raise ValueError: the
    line is split at every tab and unpacked into exactly two names, and
    neither [except] clause names ValueError.  So there is no fallback and
    no error entry; on Linux the exception leaves [run_scan] and no report
    is made.  This holds for the output of [dpkg-query], and for that of
    [rpm] when [dpkg-query] is unavailable. *)
Theorem malformed_line_aborts_scan (env : Env) (stdout : string) :
  os_launch env dpkg_argv = Exited 0 stdout ∨
  (unavailable env dpkg_argv ∧ os_launch env rpm_argv = Exited 0 stdout) →
  Exists (λ line, line ≠ "" ∧ PyStr.count PyStr.tab line ≠ 1%nat)
    (output_lines stdout) →
  ∃ e,
    exn_cls e = ValueError ∧
    (run env (get_installed_software_linux env) []).1 = Raises e ∧
    (platform_system env = "Linux" → (scan env).1 = Raises e).
Proof.
  intros H HE.
  assert (Exists (λ line, ¬ readable line) (output_lines stdout)) as HE'.
  { eapply Exists_impl; [exact HE|]. intros line. apply not_readable. }
  assert (∃ e, exn_cls e = ValueError ∧
               (run env (get_installed_software_linux env) []).1 = Raises e)
    as (e & He & E).
  { destruct H as [H|[Hu H]].
    - destruct (linux_dpkg_exited env stdout H) as [-> _]. unfold run.
      destruct (query_packages_exited env dpkg_argv stdout (init env) [] [] H)
        as [[HF _]|[_ (e & l' & He & E)]].
      + exfalso. apply Exists_exists in HE' as (line & Hin & Hline).
        rewrite Forall_forall in HF. by apply Hline, HF.
      + exists e. by rewrite E.
    - rewrite linux_fallback by done. unfold try_except.
      destruct (query_packages_exited env rpm_argv stdout (init env) []
                  [EvRun dpkg_argv] H) as [[HF _]|[_ (e & l' & He & E)]].
      + exfalso. apply Exists_exists in HE' as (line & Hin & Hline).
        rewrite Forall_forall in HF. by apply Hline, HF.
      + exists e. by rewrite E, (ValueError_not_caught e He). }
  exists e. split; [done|]. split; [done|]. intros Hlinux.
  pose proof (scan_outcome env) as Hs.
  rewrite (installed_software_linux env Hlinux) in Hs.
  destruct (run env (get_installed_software_linux env) []) as [[sw|e'] tr1];
    simpl in E; [done|].
  injection E as ->. by rewrite Hs.
Qed.

(** [dpkg-query] lists a package with an empty version last: stripping the
    output removes the tab that ends the last line. *)
Definition empty_version_env : Env :=
  linux_env
    (λ argv,
       if bool_decide (argv = dpkg_argv) then
         Exited 0 (unlines [tab_line "bash" "5.1-6"; tab_line "zsh" ""])
       else NotFound)
    (Returns sample_conns) sample_names.

Lemma malformed_line_aborts_scan_witness :
  os_launch empty_version_env dpkg_argv
  = Exited 0 (unlines [tab_line "bash" "5.1-6"; tab_line "zsh" ""]) ∧
  ∃ e,
    exn_cls e = ValueError ∧
    (run empty_version_env (get_installed_software_linux empty_version_env) []).1
    = Raises e ∧
    (platform_system empty_version_env = "Linux" → (scan empty_version_env).1 = Raises e).
Proof.
  split; [reflexivity|].
  apply (malformed_line_aborts_scan empty_version_env
           (unlines [tab_line "bash" "5.1-6"; tab_line "zsh" ""])).
  - left. reflexivity.
  - right. left. split; [discriminate|]. vm_compute. lia.
Defined.

Example empty_version_scan :
  scan empty_version_env
  = (Raises (Exn ValueError "not enough values to unpack (expected 2, got 1)"),
     scan_prologue ++ [EvRun dpkg_argv]).
Proof. reflexivity. Qed.

(** A line with two tabs is not read as a name and a version that holds a
    tab: it raises as well. *)
Definition two_tabs_env : Env :=
  linux_env
    (λ argv,
       if bool_decide (argv = dpkg_argv) then
         Exited 0 (unlines [tab_line "bash" (tab_line "5.1" "6")])
       else NotFound)
    (Returns sample_conns) sample_names.

Example two_tabs_scan :
  scan two_tabs_env
  = (Raises (Exn ValueError "too many values to unpack (expected 2)"),
     scan_prologue ++ [EvRun dpkg_argv]).
Proof. reflexivity. Qed.

(** ** Claims about the report *)

Lemma network_returns env :
  ∃ network tr, run env (get_network_info env) [] = (Returns network, tr).
Proof.
  pose proof (network_outcome env) as H.
  destruct (os_net_connections env) as [conns|e]; [|eauto].
  destruct H as (tr & _ & [(en & E & _)|(c & e & E & _)]); eauto.
Qed.

Lemma installed_software_windows env :
  platform_system env = "Windows" →
  run env (installed_software env) ()
  = run env (get_installed_software_windows env) [].
Proof.
  intros H. unfold run, installed_software. mstep. cbn [init os_type].
  rewrite H. cbn [String.eqb Ascii.eqb Bool.eqb]. unfold call. cbn [self trace].
  by destruct (get_installed_software_windows env _) as [r [o l tr]].
Qed.

Definition unsupported_error (system : string) : list value :=
  [VDict [("error", VStr ("Operating system " +:+ system +:+ " is not supported"))]].

Lemma installed_software_unsupported env :
  platform_system env ≠ "Linux" → platform_system env ≠ "Windows" →
  run env (installed_software env) ()
  = (Returns (unsupported_error (platform_system env)), []).
Proof.
  intros H1 H2. unfold run, installed_software. mstep. cbn [init os_type].
  destruct (String.eqb_spec (platform_system env) "Linux"); [done|].
  by destruct (String.eqb_spec (platform_system env) "Windows").
Qed.

(** When the software list is collected, a report is made of it and of
    what the socket collector returns. *)
Lemma scan_returns env software tr :
  run env (installed_software env) () = (Returns software, tr) →
  ∃ report network,
    (scan env).1 = Returns report ∧
    (run env (get_network_info env) []).1 = Returns network ∧
    findings report software network.
Proof.
  intros E. pose proof (scan_outcome env) as H. rewrite E in H.
  destruct (network_returns env) as (network & tr2 & E2). rewrite E2 in H.
  destruct H as (report & Hs & Hf). exists report, network. by rewrite Hs, E2.
Qed.

(** X15: a report that [run_scan] returns has both findings, each with the
    status "COMPLETED", whatever their payloads.  A report is returned
    whenever the software list is collected, be it a list of packages or
    an error entry: so it is on a system that is neither Linux nor Windows,
    on Linux when neither query tool is available, and when the socket
    enumeration fails once the software list is collected; the payload of
    the finding concerned is then the error entry, and the status of both
    stays "COMPLETED". *)
Theorem report_findings_completed (env : Env) :
  (∀ report, (scan env).1 = Returns report →
     get_path (asset_management ++ ["status"]) report = Some (VStr "COMPLETED") ∧
     get_path (system_security ++ ["status"]) report = Some (VStr "COMPLETED") ∧
     ∃ software network,
       get_path (asset_management ++ ["data"; "installed_software_sbom"]) report
       = Some (VList software) ∧
       get_path (system_security ++ ["data"; "listening_ports"]) report
       = Some (VList network)) ∧
  (∀ software tr,
     run env (installed_software env) () = (Returns software, tr) →
     ∃ report network,
       (scan env).1 = Returns report ∧
       (run env (get_network_info env) []).1 = Returns network ∧
       findings report software network) ∧
  (platform_system env ≠ "Linux" → platform_system env ≠ "Windows" →
   ∃ report network,
     (scan env).1 = Returns report ∧
     findings report (unsupported_error (platform_system env)) network) ∧
  (platform_system env = "Linux" →
   unavailable env dpkg_argv → unavailable env rpm_argv →
   ∃ report network,
     (scan env).1 = Returns report ∧
     findings report package_manager_error network) ∧
  (∀ e software tr,
     os_net_connections env = Raises e →
     run env (installed_software env) () = (Returns software, tr) →
     ∃ report,
       (scan env).1 = Returns report ∧
       findings report software (network_error e)).
Proof.
  split; [|split; [|split; [|split]]].
  - intros report Hr. pose proof (scan_outcome env) as H.
    destruct (run env (installed_software env) ()) as [[software|e] tr1].
    2:{ rewrite H in Hr. discriminate Hr. }
    destruct (run env (get_network_info env) []) as [[network|e] tr2].
    2:{ rewrite H in Hr. discriminate Hr. }
    destruct H as (report' & Hs & Ha & Hsw & Hn & Hnw).
    rewrite Hs in Hr. injection Hr as <-. split; [done|]. split; [done|].
    by exists software, network.
  - apply scan_returns.
  - intros H1 H2.
    destruct (scan_returns env _ [] (installed_software_unsupported env H1 H2))
      as (report & network & Hs & _ & Hf).
    by exists report, network.
  - intros Hl H1 H2. pose proof (linux_both_unavailable env H1 H2) as E.
    rewrite <- (installed_software_linux env Hl) in E.
    destruct (scan_returns env _ _ E) as (report & network & Hs & _ & Hf).
    by exists report, network.
  - intros e software tr He E.
    destruct (scan_returns env _ _ E) as (report & network & Hs & Hn & Hf).
    exists report. split; [done|].
    pose proof (network_outcome env) as H. rewrite He in H. rewrite H in Hn.
    by injection Hn as <-.
Qed.

(** The first end-to-end scenario: a system that is neither Linux nor
    Windows, where the socket enumeration is denied as well. *)
Definition darwin_env : Env :=
  {| platform_system := "Darwin"; platform_release := "23.1.0";
     platform_version := "Darwin Kernel Version 23.1.0"; platform_machine := "arm64";
     socket_gethostname := "mac"; utcnow_isoformat := "2024-01-01T00:00:00";
     os_launch := λ _, NotFound;
     hklm := λ _, None;
     os_net_connections := Raises (Exn AccessDenied "(pid=1)");
     os_process_name := λ _, Raises (Exn AccessDenied "(pid=1)") |}.

Lemma report_findings_completed_witness :
  platform_system darwin_env ≠ "Linux" ∧
  platform_system darwin_env ≠ "Windows" ∧
  ∃ report network,
    (scan darwin_env).1 = Returns report ∧
    findings report (unsupported_error (platform_system darwin_env)) network.
Proof.
  assert (platform_system darwin_env ≠ "Linux") as H1 by discriminate.
  assert (platform_system darwin_env ≠ "Windows") as H2 by discriminate.
  split; [exact H1|]. split; [exact H2|].
  exact (proj1 (proj2 (proj2 (report_findings_completed darwin_env))) H1 H2).
Defined.

(** C2: [run_scan] does not return a report on every run.  When the last
    line [dpkg-query] prints is a package with an empty version, the
    ValueError of the package collector leaves [run_scan] after the launch
    of [dpkg-query]: there is no report, so no finding and no status. *)
Theorem scan_without_report :
  scan empty_version_env
  = (Raises (Exn ValueError "not enough values to unpack (expected 2, got 1)"),
     scan_prologue ++ [EvRun dpkg_argv]) ∧
  ¬ (∀ env, ∃ report, (scan env).1 = Returns report).
Proof.
  split; [reflexivity|]. intros H.
  destruct (H empty_version_env) as [report Hr]. discriminate Hr.
Qed.

Example darwin_report :
  scan darwin_env
  = (Returns (VDict [
       ("scan_metadata", VDict [
          ("scan_time_utc", VStr "2024-01-01T00:00:00");
          ("scanner_version", VStr "0.1.0")]);
       ("nis2_compliance_checks", VDict [
          ("article_21_asset_management", VDict [
             ("title", VStr "Asset and Software Inventory (SBOM)");
             ("status", VStr "COMPLETED");
             ("data", VDict [
                ("system_info", VDict [
                   ("os_type", VStr "Darwin");
                   ("os_release", VStr "23.1.0");
                   ("os_version", VStr "Darwin Kernel Version 23.1.0");
                   ("architecture", VStr "arm64");
                   ("hostname", VStr "mac")]);
                ("installed_software_sbom", VList [
                   VDict [("error",
                     VStr "Operating system Darwin is not supported")]])])]);
          ("article_21_system_security", VDict [
             ("title", VStr "Basic System Security Analysis (Open Ports)");
             ("status", VStr "COMPLETED");
             ("data", VDict [
                ("listening_ports", VList [
                   VDict [("error",
                     VStr "Error getting network information: (pid=1)")]])])])])]),
     [EvPrint "Starting system scan...";
      EvPrint "1. Gathering system information and software list (SBOM)...";
      EvPrint "2. Analyzing network connections...";
      EvNetConnections;
      EvPrint "Scan complete."]).
Proof. reflexivity. Qed.

(** The same host, with another answer from the socket enumeration. *)
Definition with_net_connections (env : Env) (answer : outcome (list sconn)) : Env :=
  {| platform_system := platform_system env;
     platform_release := platform_release env;
     platform_version := platform_version env;
     platform_machine := platform_machine env;
     socket_gethostname := socket_gethostname env;
     utcnow_isoformat := utcnow_isoformat env;
     os_launch := os_launch env;
     hklm := hklm env;
     os_net_connections := answer;
     os_process_name := os_process_name env |}.

(** C8: when the socket enumeration itself raises, the collector returns
    one error entry, after the one call, with no name lookup; the report
    carries that entry as the payload of the open-port finding, and the
    software list in it is the one the package collector returns, which is
    the same whatever the enumeration answers. *)
Theorem enumeration_failure_reported_once (env : Env) (e : exn) :
  os_net_connections env = Raises e →
  run env (get_network_info env) []
  = (Returns [VDict [("error",
       VStr ("Error getting network information: " +:+ exn_str e))]],
     [EvNetConnections]) ∧
  (∀ software tr,
     run env (installed_software env) () = (Returns software, tr) →
     ∃ report,
       (scan env).1 = Returns report ∧
       findings report software
         [VDict [("error",
            VStr ("Error getting network information: " +:+ exn_str e))]]) ∧
  (∀ answer,
     run (with_net_connections env answer)
       (installed_software (with_net_connections env answer)) ()
     = run env (installed_software env) ()).
Proof.
  intros He. pose proof (network_outcome env) as H. rewrite He in H.
  split; [exact H|]. split; [|reflexivity].
  intros software tr E.
  destruct (scan_returns env _ _ E) as (report & network & Hs & Hn & Hf).
  exists report. split; [done|]. rewrite H in Hn. by injection Hn as <-.
Qed.

(** The fourth end-to-end scenario: [dpkg-query] lists two packages and
    the socket enumeration is denied. *)
Definition denied_enumeration_env : Env :=
  with_net_connections dpkg_env (Raises (Exn AccessDenied "(pid=1)")).

Lemma enumeration_failure_reported_once_witness :
  os_net_connections denied_enumeration_env = Raises (Exn AccessDenied "(pid=1)") ∧
  run denied_enumeration_env (get_network_info denied_enumeration_env) []
  = (Returns [VDict [("error",
       VStr "Error getting network information: (pid=1)")]],
     [EvNetConnections]) ∧
  ∃ report,
    (scan denied_enumeration_env).1 = Returns report ∧
    findings report [package "bash" "5.1-6"; package "zsh" "5.8-6"]
      [VDict [("error", VStr "Error getting network information: (pid=1)")]].
Proof.
  split; [reflexivity|].
  destruct (enumeration_failure_reported_once denied_enumeration_env
              (Exn AccessDenied "(pid=1)") eq_refl) as (Hn & Hs & _).
  split; [exact Hn|].
  exact (Hs [package "bash" "5.1-6"; package "zsh" "5.8-6"] [EvRun dpkg_argv] eq_refl).
Defined.


(** * Further properties *)

(** ** Strings: counting, splitting and stripping *)



Lemma count_app c a b :
  PyStr.count c (a +:+ b) = (PyStr.count c a + PyStr.count c b)%nat.
Proof. induction a as [|c' a IH]; simpl; [done|]. rewrite IH. lia. Qed.


(** No piece of a split holds the separator. *)
Lemma split_pieces sep s : Forall (λ p, PyStr.count sep p = 0%nat) (PyStr.split sep s).
Proof.
  induction s as [|c s IH]; simpl; [by repeat constructor|].
  destruct (Ascii.eqb c sep) eqn:E; [by constructor|].
  destruct (PyStr.split sep s) as [|w ws]; [by repeat constructor; simpl; rewrite E|].
  apply Forall_cons in IH as [Hw Hws]. constructor; [|done]. simpl. by rewrite E.
Qed.















(** ** More on the Linux package collector *)

(** The strategy that gets to run exits with 0 and prints [stdout]: it is
    [dpkg-query], or [rpm] when [dpkg-query] is unavailable. *)
Definition strategy_prints (env : Env) (stdout : string) : Prop :=
  os_launch env dpkg_argv = Exited 0 stdout ∨
  (unavailable env dpkg_argv ∧ os_launch env rpm_argv = Exited 0 stdout).

Lemma linux_strategy_outcome env stdout :
  strategy_prints env stdout →
  (Forall readable (output_lines stdout) ∧
   (run env (get_installed_software_linux env) []).1
   = Returns (omap line_package (output_lines stdout))) ∨
  (Exists (λ line, ¬ readable line) (output_lines stdout) ∧
   ∃ e, exn_cls e = ValueError ∧
        (run env (get_installed_software_linux env) []).1 = Raises e).
Proof.
  intros [H|[Hu H]].
  - destruct (linux_dpkg_exited env stdout H) as [-> _]. unfold run.
    destruct (query_packages_exited env dpkg_argv stdout (init env) [] [] H)
      as [[HF E]|[HE (e & l' & He & E)]]; rewrite E; [by left|right].
    split; [done|]. by exists e.
  - rewrite linux_fallback by done. unfold try_except.
    destruct (query_packages_exited env rpm_argv stdout (init env) []
                [EvRun dpkg_argv] H) as [[HF E]|[HE (e & l' & He & E)]]; rewrite E.
    + by left.
    + right. split; [done|]. exists e. by rewrite (ValueError_not_caught e He).
Qed.




(** A field of a package: it holds no tab and no newline. *)
Definition field (s : string) : Prop :=
  PyStr.count PyStr.tab s = 0%nat ∧ PyStr.count PyStr.newline s = 0%nat.








Lemma line_package_sound line d :
  line_package line = Some d →
  ∃ name version,
    line = name +:+ String PyStr.tab version ∧ d = package name version ∧
    PyStr.count PyStr.tab name = 0%nat ∧ PyStr.count PyStr.tab version = 0%nat.
Proof.
  unfold line_package. destruct (PyStr.truthy line); [|done].
  pose proof (split_length PyStr.tab line) as Hl.
  destruct (PyStr.split PyStr.tab line) as [|a [|b [|]]] eqn:E; try done.
  intros [= <-]. injection Hl as Hl.
  destruct (split_one PyStr.tab line (eq_sym Hl)) as (a' & b' & E' & -> & Ha & Hb).
  rewrite E in E'. injection E' as <- <-. by exists a, b.
Qed.

Lemma line_package_empty : line_package "" = None.
Proof. reflexivity. Qed.

Lemma line_packages_sound lines_ :
  Forall readable lines_ →
  Forall2 (λ line d,
     ∃ name version,
       line = name +:+ String PyStr.tab version ∧ d = package name version ∧
       PyStr.count PyStr.tab name = 0%nat ∧ PyStr.count PyStr.tab version = 0%nat)
    (filter (λ line, line ≠ "") lines_) (omap line_package lines_).
Proof.
  induction 1 as [|line lines_ Hr _ IH]; [constructor|].
  destruct (decide (line = "")) as [->|Hne].
  { by rewrite filter_cons_False by (by intros ?). }
  rewrite filter_cons_True by done. cbn [omap list_omap].
  destruct Hr as [?|H1]; [done|].
  destruct (split_one _ _ H1) as (a & b & E & _).
  assert (line_package line = Some (package a b)) as Hpk.
  { unfold line_package. rewrite E. by destruct line. }
  rewrite Hpk. constructor; [|done]. by apply line_package_sound.
Qed.

Lemma Forall2_and_l {A B} (Q : A → Prop) (R : A → B → Prop) l k :
  Forall Q l → Forall2 R l k → Forall2 (λ x y, Q x ∧ R x y) l k.
Proof.
  intros HQ HR. induction HR as [|x y l k Hxy _ IH]; [constructor|].
  apply Forall_cons in HQ as [Hx HQ]. constructor; [done|by apply IH].
Qed.

(** X2: every package the Linux collector returns comes from one non-empty
    line of the stripped output of the tool that ran, in the order of the
    lines: the name is what stands before the one tab of the line, the
    version what stands after it, and neither holds a tab or a newline. *)
Theorem linux_packages_from_lines (env : Env) (stdout : string) (out : list value) :
  strategy_prints env stdout →
  (run env (get_installed_software_linux env) []).1 = Returns out →
  Forall2 (λ line d,
     ∃ name version,
       line = name +:+ String PyStr.tab version ∧ d = package name version ∧
       field name ∧ field version)
    (filter (λ line, line ≠ "") (output_lines stdout)) out.
Proof.
  intros Hs Hout.
  destruct (linux_strategy_outcome env stdout Hs) as [[HF E]|[_ (e & _ & E)]];
    [|congruence].
  rewrite E in Hout. injection Hout as <-.
  assert (Forall (λ line, PyStr.count PyStr.newline line = 0%nat)
            (filter (λ line, line ≠ "") (output_lines stdout))) as Hnl.
  { apply Forall_forall. intros line [_ Hin]%list_elem_of_filter.
    pose proof (split_pieces PyStr.newline (PyStr.strip stdout)) as Hp.
    rewrite Forall_forall in Hp. by apply Hp. }
  eapply Forall2_impl; [exact (Forall2_and_l _ _ _ _ Hnl (line_packages_sound _ HF))|].
  intros line d (Hl & n & v & -> & -> & Hn & Hv). exists n, v.
  split; [done|]. split; [done|].
  rewrite count_app in Hl. simpl in Hl. unfold field. split; split; (done || lia).
Qed.

Definition noisy_env : Env :=
  linux_env
    (λ argv,
       if bool_decide (argv = dpkg_argv) then
         Exited 0 (unlines [""; tab_line "bash" "5.1-6"; ""; tab_line "zsh" ""; "";
                            tab_line "vim" "9.0"; ""])
       else NotFound)
    (Returns []) sample_names.

Lemma linux_packages_from_lines_witness :
  strategy_prints noisy_env
    (unlines [""; tab_line "bash" "5.1-6"; ""; tab_line "zsh" ""; "";
              tab_line "vim" "9.0"; ""]) ∧
  (run noisy_env (get_installed_software_linux noisy_env) []).1
  = Returns [package "bash" "5.1-6"; package "zsh" ""; package "vim" "9.0"] ∧
  Forall2 (λ line d,
     ∃ name version,
       line = name +:+ String PyStr.tab version ∧ d = package name version ∧
       field name ∧ field version)
    (filter (λ line, line ≠ "")
       (output_lines
          (unlines [""; tab_line "bash" "5.1-6"; ""; tab_line "zsh" ""; "";
                    tab_line "vim" "9.0"; ""])))
    [package "bash" "5.1-6"; package "zsh" ""; package "vim" "9.0"].
Proof.
  assert (strategy_prints noisy_env
            (unlines [""; tab_line "bash" "5.1-6"; ""; tab_line "zsh" ""; "";
                      tab_line "vim" "9.0"; ""])) as Hs by (left; reflexivity).
  split; [exact Hs|]. split; [reflexivity|].
  exact (linux_packages_from_lines noisy_env _ _ Hs eq_refl).
Defined.

(** X3: when [dpkg-query] is unavailable and [rpm] exits with 0, both are
    launched, in that order, and what the collector returns or raises is
    what the second [try] block does on its own: nothing of the first
    attempt is in the list.  When every line of the output of [rpm] is
    empty or has exactly one tab, that is the list of the packages of the
    non-empty lines. *)
Theorem rpm_fallback_result (env : Env) (stdout : string) :
  unavailable env dpkg_argv →
  os_launch env rpm_argv = Exited 0 stdout →
  (run env (get_installed_software_linux env) []).2 = [EvRun dpkg_argv; EvRun rpm_argv] ∧
  (run env (get_installed_software_linux env) []).1
  = (run env (query_packages env rpm_argv) []).1 ∧
  (Forall readable (output_lines stdout) →
   (run env (get_installed_software_linux env) []).1
   = Returns (omap line_package (output_lines stdout))).
Proof.
  intros Hu H. rewrite linux_fallback by done. unfold run, try_except.
  destruct (framed_inv (query_packages env rpm_argv) (init env) []
              (framed_query_packages env rpm_argv)) as (r & l' & tr' & E0 & E).
  rewrite (E [EvRun dpkg_argv]), E0.
  destruct (query_packages_exited env rpm_argv stdout (init env) [] [] H)
    as [[HF E']|[HE (e & l'' & He & E')]]; rewrite E0 in E'; injection E' as -> -> ->.
  - done.
  - rewrite (ValueError_not_caught e He). split; [done|]. split; [done|].
    intros HF. exfalso. apply Exists_exists in HE as (line & Hin & Hline).
    rewrite Forall_forall in HF. by apply Hline, HF.
Qed.

Lemma rpm_fallback_result_witness :
  unavailable rpm_env dpkg_argv ∧
  os_launch rpm_env rpm_argv = Exited 0 (unlines [tab_line "bash" "5.1-6"]) ∧
  (run rpm_env (get_installed_software_linux rpm_env) []).2
  = [EvRun dpkg_argv; EvRun rpm_argv] ∧
  (run rpm_env (get_installed_software_linux rpm_env) []).1
  = (run rpm_env (query_packages rpm_env rpm_argv) []).1 ∧
  (Forall readable (output_lines (unlines [tab_line "bash" "5.1-6"])) →
   (run rpm_env (get_installed_software_linux rpm_env) []).1
   = Returns (omap line_package (output_lines (unlines [tab_line "bash" "5.1-6"])))).
Proof.
  assert (unavailable rpm_env dpkg_argv) as Hu by (by left).
  split; [exact Hu|]. split; [reflexivity|].
  exact (rpm_fallback_result rpm_env _ Hu eq_refl).
Defined.

Lemma line_packages_are_packages (lines_ : list string) d :
  d ∈ omap line_package lines_ → ∃ name version, d = package name version.
Proof.
  intros (line & _ & H)%list_elem_of_omap.
  destruct (line_package_sound line d H) as (n & v & _ & -> & _). by exists n, v.
Qed.

Lemma not_package_manager_error (lines_ : list string) :
  omap line_package lines_ ≠ package_manager_error.
Proof.
  intros E. assert (VDict [("error",
     VStr "Could not determine the package manager (neither dpkg nor rpm)")]
     ∈ omap line_package lines_) as Hin by (rewrite E; left).
  by apply line_packages_are_packages in Hin as (n & v & ?).
Qed.

(** X4: the Linux collector returns the entry "Could not determine the
    package manager" exactly when both tools are unavailable, each missing
    or exiting with a return code other than 0. *)
Theorem package_manager_error_iff (env : Env) :
  (run env (get_installed_software_linux env) []).1 = Returns package_manager_error ↔
  (os_launch env dpkg_argv = NotFound ∨
   ∃ returncode stdout,
     os_launch env dpkg_argv = Exited returncode stdout ∧ returncode ≠ 0) ∧
  (os_launch env rpm_argv = NotFound ∨
   ∃ returncode stdout,
     os_launch env rpm_argv = Exited returncode stdout ∧ returncode ≠ 0).
Proof.
  fold (unavailable env dpkg_argv) (unavailable env rpm_argv). split.
  2:{ intros [H1 H2]. by rewrite (linux_both_unavailable env H1 H2). }
  intros Hr.
  assert (∀ argv stdout, os_launch env argv = Exited 0 stdout → ¬ unavailable env argv)
    as Hex.
  { intros argv stdout H [H'|(rc & out & H' & Hrc)]; congruence. }
  assert (∀ stdout, strategy_prints env stdout → False) as Hno.
  { intros stdout Hs.
    destruct (linux_strategy_outcome env stdout Hs) as [[_ E]|[_ (e & _ & E)]];
      rewrite E in Hr; [|done].
    injection Hr as Hr. by apply not_package_manager_error in Hr. }
  destruct (launch_cases env dpkg_argv) as [[out H]|[H|H]].
  - destruct (Hno out). by left.
  - exfalso. revert Hr. unfold run, get_installed_software_linux.
    mstep. unfold try_except.
    destruct (query_packages_not_executable env dpkg_argv (init env) [] [] H)
      as (e & He & E).
    by rewrite E, (PermissionError_not_caught e He).
  - split; [done|]. destruct (launch_cases env rpm_argv) as [[out H']|[H'|H']].
    + destruct (Hno out). by right.
    + exfalso. revert Hr. rewrite linux_fallback by done. unfold try_except.
      destruct (query_packages_not_executable env rpm_argv (init env) []
                  [EvRun dpkg_argv] H') as (e & He & E).
      by rewrite E, (PermissionError_not_caught e He).
    + done.
Qed.

(** X5: a query tool that is found but may not be executed makes the
    collector raise PermissionError, which neither [except] clause names:
    no other tool is tried after it, no error entry is returned, and on
    Linux no report is made. *)
Theorem not_executable_tool_aborts (env : Env) :
  os_launch env dpkg_argv = NotExecutable ∨
  (unavailable env dpkg_argv ∧ os_launch env rpm_argv = NotExecutable) →
  ∃ e,
    exn_cls e = PermissionError ∧
    (run env (get_installed_software_linux env) []).1 = Raises e ∧
    (os_launch env dpkg_argv = NotExecutable →
     (run env (get_installed_software_linux env) []).2 = [EvRun dpkg_argv]) ∧
    (platform_system env = "Linux" → (scan env).1 = Raises e).
Proof.
  intros H.
  assert (∃ e, exn_cls e = PermissionError ∧
               (run env (get_installed_software_linux env) []).1 = Raises e ∧
               (os_launch env dpkg_argv = NotExecutable →
                (run env (get_installed_software_linux env) []).2 = [EvRun dpkg_argv]))
    as (e & He & E & Htr).
  { destruct H as [H|[Hu H]].
    - destruct (query_packages_not_executable env dpkg_argv (init env) [] [] H)
        as (e & He & E).
      exists e. split; [done|]. unfold run, get_installed_software_linux.
      mstep. unfold try_except. by rewrite E, (PermissionError_not_caught e He).
    - destruct (query_packages_not_executable env rpm_argv (init env) []
                  [EvRun dpkg_argv] H) as (e & He & E).
      exists e. split; [done|]. rewrite linux_fallback by done. unfold try_except.
      rewrite E, (PermissionError_not_caught e He). split; [done|].
      intros H'. destruct Hu as [Hu|(rc & out & Hu & _)]; congruence. }
  exists e. split; [done|]. split; [done|]. split; [done|]. intros Hlinux.
  pose proof (scan_outcome env) as Hs.
  rewrite (installed_software_linux env Hlinux) in Hs.
  destruct (run env (get_installed_software_linux env) []) as [[sw|e'] tr1];
    simpl in E; [done|].
  injection E as ->. by rewrite Hs.
Qed.

Definition not_executable_env : Env :=
  linux_env (λ argv, if bool_decide (argv = dpkg_argv) then NotExecutable
                     else Exited 0 (unlines [tab_line "bash" "5.1-6"]))
    (Returns []) sample_names.

Lemma not_executable_tool_aborts_witness :
  os_launch not_executable_env dpkg_argv = NotExecutable ∧
  ∃ e,
    exn_cls e = PermissionError ∧
    (run not_executable_env (get_installed_software_linux not_executable_env) []).1
    = Raises e ∧
    (os_launch not_executable_env dpkg_argv = NotExecutable →
     (run not_executable_env (get_installed_software_linux not_executable_env) []).2
     = [EvRun dpkg_argv]) ∧
    (platform_system not_executable_env = "Linux" →
     (scan not_executable_env).1 = Raises e).
Proof.
  split; [reflexivity|].
  apply (not_executable_tool_aborts not_executable_env). left. reflexivity.
Defined.

(** ** More on the Windows package collector *)

(** [QueryValueEx(subkey, name)[0]], when the value is there. *)
Definition query_value (sk : reg_subkey) (name : string) : option string :=
  (λ nv, nv.2) <$> find (λ nv, String.eqb nv.1 name) (subkey_values sk).

Lemma subkey_package_values sk d :
  subkey_package sk = Some d ↔
  ∃ name version,
    query_value sk "DisplayName" = Some name ∧
    query_value sk "DisplayVersion" = Some version ∧
    d = package name version.
Proof.
  unfold subkey_package, query_value.
  destruct (find (λ nv, String.eqb nv.1 "DisplayName") (subkey_values sk)) as [n|];
    destruct (find (λ nv, String.eqb nv.1 "DisplayVersion") (subkey_values sk)) as [v|];
    simpl; split; try done; try (by intros (? & ? & ? & ? & ?)).
  - intros [= <-]. by exists n.2, v.2.
  - by intros (? & ? & [= <-] & [= <-] & ->).
Qed.

(** What the collector returns has the members of [registry_packages]. *)
Lemma windows_members env :
  ∃ out,
    run env (get_installed_software_windows env) [] = (Returns out, []) ∧
    ∀ d, d ∈ out ↔ d ∈ registry_packages env.
Proof.
  eexists. split; [apply windows_outcome|].
  intros d. rewrite list_elem_of_fmap. split.
  - intros (t & -> & Ht). apply elem_of_elements, elem_of_list_to_set in Ht.
    apply list_elem_of_fmap in Ht as (p & -> & Hp).
    destruct (registry_packages_are_packages env p Hp) as (n & v & ->).
    by rewrite dict_items_package.
  - intros Hd. destruct (registry_packages_are_packages env d Hd) as (n & v & ->).
    exists (dict_items (package n v)). split; [done|].
    apply elem_of_elements, elem_of_list_to_set, list_elem_of_fmap. eauto.
Qed.

(** The subkeys at the head of a key that may be opened. *)
Fixpoint readable_prefix (key : list reg_subkey) : list reg_subkey :=
  match key with
  | sk :: key' => if subkey_readable sk then sk :: readable_prefix key' else []
  | [] => []
  end.

Lemma find_skip {A} (f : A → bool) (pre l : list A) :
  Forall (λ x, f x = false) pre → find f (pre ++ l) = find f l.
Proof. induction 1 as [|x pre Hx _ IH]; simpl; [done|]. by rewrite Hx. Qed.

(** When the names of the subkeys differ, opening them by name opens them
    in turn. *)
Lemma opened_by_name pre suf :
  NoDup (subkey_name <$> pre ++ suf) →
  opened (pre ++ suf) (subkey_name <$> suf) = readable_prefix suf.
Proof.
  revert pre. induction suf as [|sk suf IH]; intros pre Hnd; [done|].
  rewrite fmap_cons. cbn [opened readable_prefix].
  rewrite find_skip.
  2:{ apply Forall_forall. intros x Hx. apply String.eqb_neq. intros Heq.
      rewrite fmap_app, fmap_cons in Hnd. apply NoDup_app in Hnd as (_ & Hd & _).
      apply (Hd (subkey_name x)); [by apply list_elem_of_fmap_2|].
      rewrite Heq. left. }
  simpl. rewrite String.eqb_refl. destruct (subkey_readable sk); [|done].
  f_equal. specialize (IH (pre ++ [sk])). rewrite <- app_assoc in IH. by apply IH.
Qed.

Lemma location_packages_by_name env path key :
  hklm env path = Some key → NoDup (subkey_name <$> key) →
  location_packages env path = omap subkey_package (readable_prefix key).
Proof.
  intros H Hnd. unfold location_packages. rewrite H.
  by rewrite <- (opened_by_name [] key).
Qed.

Lemma readable_prefix_all key :
  Forall (λ sk, subkey_readable sk = true) key → readable_prefix key = key.
Proof. induction 1 as [|sk key Hsk _ IH]; simpl; [done|]. by rewrite Hsk, IH. Qed.

Lemma readable_prefix_stops pre sk post :
  Forall (λ sk, subkey_readable sk = true) pre → subkey_readable sk = false →
  readable_prefix (pre ++ sk :: post) = pre.
Proof.
  intros Hpre Hsk. induction Hpre as [|x pre Hx _ IH]; simpl; [by rewrite Hsk|].
  by rewrite Hx, IH.
Qed.

Lemma elem_of_uninstall_paths path :
  path ∈ uninstall_paths ↔
  path = "SOFTWARE\Microsoft\Windows\CurrentVersion\Uninstall" ∨
  path = "SOFTWARE\WOW6432Node\Microsoft\Windows\CurrentVersion\Uninstall".
Proof.
  unfold uninstall_paths. rewrite !elem_of_cons, elem_of_nil.
  split; [intros [?|[?|[]]]|intros [?|?]]; auto.
Qed.

Lemma elem_of_registry_packages env d :
  d ∈ registry_packages env ↔
  ∃ path, path ∈ uninstall_paths ∧ d ∈ location_packages env path.
Proof.
  unfold registry_packages. rewrite elem_of_app. split.
  - intros [H|H]; eexists; (split; [|exact H]); apply elem_of_uninstall_paths; auto.
  - intros (path & [->| ->]%elem_of_uninstall_paths & H); auto.
Qed.

(** X6: when every subkey of the uninstall locations can be opened and the
    names of the subkeys of a location differ, the list the Windows
    collector returns holds exactly the packages of the subkeys that have
    both a DisplayName and a DisplayVersion: a subkey that lacks either
    gives nothing, and a location that is not there is passed over. *)
Theorem windows_packages_complete (env : Env) :
  (∀ path key,
     path ∈ uninstall_paths → hklm env path = Some key →
     NoDup (subkey_name <$> key) ∧ Forall (λ sk, subkey_readable sk = true) key) →
  ∃ out,
    run env (get_installed_software_windows env) [] = (Returns out, []) ∧
    ∀ d, d ∈ out ↔
      ∃ path key sk name version,
        path ∈ uninstall_paths ∧ hklm env path = Some key ∧ sk ∈ key ∧
        query_value sk "DisplayName" = Some name ∧
        query_value sk "DisplayVersion" = Some version ∧
        d = package name version.
Proof.
  intros Hreg. destruct (windows_members env) as (out & E & Hout).
  exists out. split; [done|]. intros d.
  rewrite Hout, elem_of_registry_packages. split.
  - intros (path & Hpath & Hd). destruct (hklm env path) as [key|] eqn:Hk.
    2:{ unfold location_packages in Hd. rewrite Hk in Hd. by apply elem_of_nil in Hd. }
    destruct (Hreg path key Hpath Hk) as [Hnd Hr].
    rewrite (location_packages_by_name env path key Hk Hnd),
      (readable_prefix_all key Hr) in Hd.
    apply list_elem_of_omap in Hd as (sk & Hsk & Hd).
    apply subkey_package_values in Hd as (n & v & Hn & Hv & ->).
    by exists path, key, sk, n, v.
  - intros (path & key & sk & n & v & Hpath & Hk & Hsk & Hn & Hv & ->).
    exists path. split; [done|]. destruct (Hreg path key Hpath Hk) as [Hnd Hr].
    rewrite (location_packages_by_name env path key Hk Hnd),
      (readable_prefix_all key Hr).
    apply list_elem_of_omap. exists sk. split; [done|].
    apply subkey_package_values. by exists n, v.
Qed.

Definition registry_env (first second : option (list reg_subkey)) : Env :=
  {| platform_system := "Windows"; platform_release := "10";
     platform_version := "10.0.19045"; platform_machine := "AMD64";
     socket_gethostname := "host"; utcnow_isoformat := "2024-01-01T00:00:00";
     os_launch := λ _, NotFound;
     hklm := λ path,
       if String.eqb path "SOFTWARE\Microsoft\Windows\CurrentVersion\Uninstall"
       then first
       else if String.eqb path
                 "SOFTWARE\WOW6432Node\Microsoft\Windows\CurrentVersion\Uninstall"
       then second else None;
     os_net_connections := Returns [];
     os_process_name := λ _, Raises (Exn NoSuchProcess "process no longer exists") |}.

Definition subkey (name : string) (readable : bool) (values : list (string * string))
    : reg_subkey :=
  {| subkey_name := name; subkey_readable := readable; subkey_values := values |}.

Definition complete_env : Env :=
  registry_env
    (Some [subkey "Tool" true [("DisplayName", "Tool"); ("DisplayVersion", "1.0")];
           subkey "KB5031356" true [("DisplayName", "Update")];
           subkey "Editor" true [("DisplayVersion", "2.3"); ("DisplayName", "Editor")]])
    None.

Lemma windows_packages_complete_witness :
  (∀ path key,
     path ∈ uninstall_paths → hklm complete_env path = Some key →
     NoDup (subkey_name <$> key) ∧ Forall (λ sk, subkey_readable sk = true) key) ∧
  ∃ out,
    run complete_env (get_installed_software_windows complete_env) []
    = (Returns out, []) ∧
    ∀ d, d ∈ out ↔
      ∃ path key sk name version,
        path ∈ uninstall_paths ∧ hklm complete_env path = Some key ∧ sk ∈ key ∧
        query_value sk "DisplayName" = Some name ∧
        query_value sk "DisplayVersion" = Some version ∧
        d = package name version.
Proof.
  assert (∀ path key,
            path ∈ uninstall_paths → hklm complete_env path = Some key →
            NoDup (subkey_name <$> key) ∧ Forall (λ sk, subkey_readable sk = true) key)
    as Hreg.
  { intros path key [->| ->]%elem_of_uninstall_paths [= <-].
    split; [|by repeat constructor].
    simpl. repeat (apply NoDup_cons_2;
                   [rewrite ?not_elem_of_cons; repeat split;
                    (discriminate || apply not_elem_of_nil)|]).
    apply NoDup_nil_2. }
  split; [exact Hreg|]. exact (windows_packages_complete complete_env Hreg).
Defined.

(** X7: a subkey that cannot be opened ends the reading of its location:
    the subkeys before it give their packages, the subkeys after it give
    nothing, readable or not.  The other location is read as ever. *)
Theorem unreadable_subkey_ends_location (env : Env) (path other : string)
    (before after : list reg_subkey) (sk : reg_subkey) :
  path ∈ uninstall_paths → other ∈ uninstall_paths → path ≠ other →
  hklm env path = Some (before ++ sk :: after) →
  NoDup (subkey_name <$> before ++ sk :: after) →
  Forall (λ sk, subkey_readable sk = true) before →
  subkey_readable sk = false →
  ∃ out,
    run env (get_installed_software_windows env) [] = (Returns out, []) ∧
    ∀ d, d ∈ out ↔
      (∃ sk' name version,
         sk' ∈ before ∧
         query_value sk' "DisplayName" = Some name ∧
         query_value sk' "DisplayVersion" = Some version ∧
         d = package name version) ∨
      d ∈ location_packages env other.
Proof.
  intros Hpath Hother Hne Hk Hnd Hbefore Hsk.
  destruct (windows_members env) as (out & E & Hout).
  exists out. split; [done|]. intros d.
  assert (d ∈ location_packages env path ↔
          ∃ sk' n v, sk' ∈ before ∧ query_value sk' "DisplayName" = Some n ∧
                     query_value sk' "DisplayVersion" = Some v ∧ d = package n v)
    as Hloc.
  { rewrite (location_packages_by_name env path _ Hk Hnd),
      (readable_prefix_stops before sk after Hbefore Hsk), list_elem_of_omap.
    split.
    - intros (sk' & Hin & (n & v & H)%subkey_package_values). by exists sk', n, v.
    - intros (sk' & n & v & Hin & H). exists sk'. split; [done|].
      apply subkey_package_values. by exists n, v. }
  rewrite Hout, elem_of_registry_packages, <- Hloc. split.
  - intros (p & Hp & Hd).
    apply elem_of_uninstall_paths in Hp, Hpath, Hother.
    destruct Hp as [->| ->], Hpath as [->| ->], Hother as [->| ->]; auto; done.
  - intros [Hd|Hd]; eauto.
Qed.

Definition denied_subkey_env : Env :=
  registry_env
    (Some [subkey "Tool" true [("DisplayName", "Tool"); ("DisplayVersion", "1.0")];
           subkey "Locked" false [("DisplayName", "Locked"); ("DisplayVersion", "9")];
           subkey "Editor" true [("DisplayName", "Editor"); ("DisplayVersion", "2.3")]])
    (Some [subkey "Viewer" true [("DisplayName", "Viewer"); ("DisplayVersion", "0.4")]]).

Lemma unreadable_subkey_ends_location_witness :
  hklm denied_subkey_env "SOFTWARE\Microsoft\Windows\CurrentVersion\Uninstall"
  = Some ([subkey "Tool" true [("DisplayName", "Tool"); ("DisplayVersion", "1.0")]]
          ++ subkey "Locked" false [("DisplayName", "Locked"); ("DisplayVersion", "9")]
          :: [subkey "Editor" true [("DisplayName", "Editor"); ("DisplayVersion", "2.3")]]) ∧
  ∃ out,
    run denied_subkey_env (get_installed_software_windows denied_subkey_env) []
    = (Returns out, []) ∧
    ∀ d, d ∈ out ↔
      (∃ sk' name version,
         sk' ∈ [subkey "Tool" true [("DisplayName", "Tool"); ("DisplayVersion", "1.0")]] ∧
         query_value sk' "DisplayName" = Some name ∧
         query_value sk' "DisplayVersion" = Some version ∧
         d = package name version) ∨
      d ∈ location_packages denied_subkey_env
            "SOFTWARE\WOW6432Node\Microsoft\Windows\CurrentVersion\Uninstall".
Proof.
  split; [reflexivity|].
  apply (unreadable_subkey_ends_location denied_subkey_env
           "SOFTWARE\Microsoft\Windows\CurrentVersion\Uninstall"
           "SOFTWARE\WOW6432Node\Microsoft\Windows\CurrentVersion\Uninstall"
           [subkey "Tool" true [("DisplayName", "Tool"); ("DisplayVersion", "1.0")]]
           [subkey "Editor" true [("DisplayName", "Editor"); ("DisplayVersion", "2.3")]]
           (subkey "Locked" false [("DisplayName", "Locked"); ("DisplayVersion", "9")])).
  - left.
  - right. left.
  - discriminate.
  - reflexivity.
  - simpl. repeat (apply NoDup_cons_2;
                   [rewrite ?not_elem_of_cons; repeat split;
                    (discriminate || apply not_elem_of_nil)|]).
    apply NoDup_nil_2.
  - by repeat constructor.
  - reflexivity.
Defined.

Example denied_subkey_packages :
  ∃ out,
    run denied_subkey_env (get_installed_software_windows denied_subkey_env) []
    = (Returns out, []) ∧
    out ≡ₚ [package "Tool" "1.0"; package "Viewer" "0.4"].
Proof.
  eexists. split; [vm_compute; reflexivity|].
  first [reflexivity | apply Permutation_swap].
Qed.

Lemma opened_subset key names sk : sk ∈ opened key names → sk ∈ key.
Proof.
  induction names as [|name names IH]; simpl; [by intros ?%elem_of_nil|].
  destruct (find (λ sk0, String.eqb (subkey_name sk0) name) key) as [sk'|] eqn:E;
    [|by intros ?%elem_of_nil].
  destruct (subkey_readable sk'); [|by intros ?%elem_of_nil].
  intros [->|H]%elem_of_cons; [|by apply IH].
  apply find_some in E as [Hin _]. by apply list_elem_of_In.
Qed.

(** X8: the Windows collector returns no error entry: every element of a
    list it returns is a dictionary with the two keys "name" and "version",
    in that order, and without the key "error".  When neither uninstall
    location is there, and when no subkey has both values, it returns the
    empty list. *)
Theorem windows_no_error_entry (env : Env) :
  (∀ out, (run env (get_installed_software_windows env) []).1 = Returns out →
     Forall (λ d, get "error" d = None ∧
                  (dict_items d).*1 = ["name"; "version"]) out) ∧
  ((∀ path, path ∈ uninstall_paths → hklm env path = None) →
   run env (get_installed_software_windows env) [] = (Returns [], [])) ∧
  ((∀ path key sk, path ∈ uninstall_paths → hklm env path = Some key → sk ∈ key →
      query_value sk "DisplayName" = None ∨ query_value sk "DisplayVersion" = None) →
   run env (get_installed_software_windows env) [] = (Returns [], [])).
Proof.
  destruct (windows_members env) as (out & E & Hout). rewrite E.
  split; [|split].
  - intros out' [= <-]. apply Forall_forall. intros d Hd%Hout.
    by destruct (registry_packages_are_packages env d Hd) as (n & v & ->).
  - intros Habsent. destruct out as [|d out]; [done|]. exfalso.
    assert (d ∈ registry_packages env) as Hd by (apply Hout; left).
    apply elem_of_registry_packages in Hd as (path & Hpath & Hd).
    unfold location_packages in Hd. rewrite (Habsent path Hpath) in Hd.
    by apply elem_of_nil in Hd.
  - intros Hnone. destruct out as [|d out]; [done|]. exfalso.
    assert (d ∈ registry_packages env) as Hd by (apply Hout; left).
    apply elem_of_registry_packages in Hd as (path & Hpath & Hd).
    unfold location_packages in Hd. destruct (hklm env path) as [key|] eqn:Hk.
    2:{ by apply elem_of_nil in Hd. }
    apply list_elem_of_omap in Hd as (sk & Hsk & Hd).
    apply subkey_package_values in Hd as (n & v & Hn & Hv & _).
    destruct (Hnone path key sk Hpath Hk (opened_subset _ _ _ Hsk)); congruence.
Qed.

(** ** More on the listening-socket collector *)

Lemma for_each_app {L X} (xs ys : list X) (body : X → M L unit) (s : state L) :
  for_each (xs ++ ys) body s =
  match for_each xs body s with
  | (Returns _, s') => for_each ys body s'
  | (Raises e, s') => (Raises e, s')
  end.
Proof.
  revert s. induction xs as [|x xs IH]; intros s; [done|].
  simpl app. rewrite !for_each_cons. destruct (body x s) as [[[]|e] s']; [apply IH|done].
Qed.

(** The collector, from what its loop does. *)
Lemma network_from_loop env conns r l tr :
  os_net_connections env = Returns conns →
  for_each conns (listening_connection env) (State (init env) [] [EvNetConnections])
  = (r, State (init env) l tr) →
  run env (get_network_info env) []
  = (match r with
     | Returns _ => Returns l
     | Raises e => Returns (network_error e)
     end, tr).
Proof.
  intros Hc E. unfold run, get_network_info, net_connections. rewrite Hc.
  mstep. unfold try_except. rewrite !bind_unfold. cbn -[for_each catches].
  rewrite bind_unfold, E. destruct r as [[]|e]; [done|].
  by rewrite catches_Exception.
Qed.

(** The name the collector gives to the process of a connection whose
    lookup, if one is made, answers or raises NoSuchProcess. *)
Definition process_name_of (env : Env) (c : sconn) : string :=
  match pid_truthy (pid c) with
  | None => "N/A"
  | Some p =>
      match os_process_name env p with
      | Returns name => name
      | Raises _ => "Process terminated"
      end
  end.

(** The lookups made for connections: one for each listening connection
    with a pid other than 0. *)
Definition lookups_of (conns : list sconn) : list event :=
  omap (λ c, EvProcessName <$> pid_truthy (pid c))
       (filter (λ c, status c = "LISTEN") conns).

(** No lookup of the connection fails otherwise than with NoSuchProcess. *)
Definition lookup_recovers (env : Env) (c : sconn) : Prop :=
  ∀ p e, status c = "LISTEN" → pid c = Some p → p ≠ 0 →
         os_process_name env p = Raises e →
         issubclass (exn_cls e) NoSuchProcess = true.

Lemma pid_truthy_Some p n : pid_truthy p = Some n ↔ p = Some n ∧ n ≠ 0.
Proof.
  split; [apply pid_truthy_nonzero|]. intros [-> Hn]. simpl.
  by destruct (Z.eqb_spec n 0).
Qed.

Lemma network_loop_recovers env conns o l tr :
  Forall (lookup_recovers env) conns →
  for_each conns (listening_connection env) (State o l tr)
  = (Returns (),
     State o (l ++ ((λ c, listening_socket c (process_name_of env c))
                      <$> filter (λ c, status c = "LISTEN") conns))
             (tr ++ lookups_of conns)).
Proof.
  intros Hok. revert l tr.
  induction Hok as [|c conns Hc _ IH]; intros l tr.
  { simpl. by rewrite !app_nil_r. }
  rewrite for_each_cons. unfold lookups_of.
  destruct (decide (status c = "LISTEN")) as [Hl|Hl].
  2:{ rewrite listening_connection_skip, !filter_cons_False by done. apply IH. }
  rewrite !filter_cons_True by done. rewrite fmap_cons. cbn [omap list_omap].
  unfold process_name_of at 1.
  destruct (pid_truthy (pid c)) as [p|] eqn:Hp; cbn [fmap option_fmap option_map].
  2:{ rewrite listening_connection_no_pid by done. rewrite IH.
      by rewrite <- !app_assoc. }
  destruct (os_process_name env p) as [n|e] eqn:Hn.
  - rewrite (listening_connection_name env c o l tr p n) by done.
    rewrite IH. unfold lookups_of. by rewrite <- !app_assoc.
  - apply pid_truthy_Some in Hp as Hp'. destruct Hp' as [Hpid Hp0].
    rewrite (listening_connection_terminated env c o l tr p e); try done.
    + rewrite IH. unfold lookups_of. by rewrite <- !app_assoc.
    + rewrite catches_one. by apply (Hc p e).
Qed.

(** X9: when the enumeration answers and no name lookup fails otherwise
    than with NoSuchProcess, the collector is a filter and a map: it returns
    the entry of every listening connection, in their order, and makes one
    lookup for each listening connection with a pid other than 0, in their
    order, after the one enumeration. *)
Theorem socket_collector_filter_map (env : Env) (conns : list sconn) :
  os_net_connections env = Returns conns →
  Forall (lookup_recovers env) conns →
  run env (get_network_info env) []
  = (Returns ((λ c, listening_socket c (process_name_of env c))
                <$> filter (λ c, status c = "LISTEN") conns),
     EvNetConnections :: lookups_of conns).
Proof.
  intros Hc Hok.
  by rewrite (network_from_loop env conns _ _ _ Hc
                (network_loop_recovers env conns (init env) [] [EvNetConnections] Hok)).
Qed.

Lemma sample_lookups_recover : Forall (lookup_recovers sample_env) sample_conns.
Proof.
  repeat constructor; intros p e _ [= <-] _; unfold sample_env, linux_env, sample_names;
    simpl; try discriminate; by intros [= <-].
Qed.

Lemma socket_collector_filter_map_witness :
  os_net_connections sample_env = Returns sample_conns ∧
  Forall (lookup_recovers sample_env) sample_conns ∧
  run sample_env (get_network_info sample_env) []
  = (Returns ((λ c, listening_socket c (process_name_of sample_env c))
                <$> filter (λ c, status c = "LISTEN") sample_conns),
     EvNetConnections :: lookups_of sample_conns).
Proof.
  split; [reflexivity|]. split; [exact sample_lookups_recover|].
  exact (socket_collector_filter_map sample_env sample_conns eq_refl
           sample_lookups_recover).
Defined.

(** X10: the error the collector reports is that of the first listening
    connection, in the order of the enumeration, whose lookup fails
    otherwise than with NoSuchProcess; the lookups stop there, so no
    connection after it is looked up. *)
Theorem first_lookup_failure_reported (env : Env) (before after : list sconn)
    (c : sconn) (p : Z) (e : exn) :
  os_net_connections env = Returns (before ++ c :: after) →
  Forall (lookup_recovers env) before →
  status c = "LISTEN" → pid c = Some p → p ≠ 0 →
  os_process_name env p = Raises e →
  issubclass (exn_cls e) NoSuchProcess = false →
  run env (get_network_info env) []
  = (Returns [VDict [("error",
       VStr ("Error getting network information: " +:+ exn_str e))]],
     EvNetConnections :: lookups_of before ++ [EvProcessName p]).
Proof.
  intros Hc Hok Hl Hp Hp0 Hn He.
  assert (pid_truthy (pid c) = Some p) as Hpt by (by apply pid_truthy_Some).
  erewrite (network_from_loop env _ (Raises e) _ _ Hc); [reflexivity|].
  rewrite for_each_app, (network_loop_recovers env before _ _ _ Hok), for_each_cons.
  rewrite (listening_connection_raises env c _ _ _ p e); try done.
  by rewrite catches_one.
Qed.

Lemma first_lookup_failure_reported_witness :
  os_net_connections denied_env
  = Returns ([conn SOCK_STREAM "0.0.0.0" 22 "LISTEN" (Some 812)]
             ++ conn SOCK_STREAM "0.0.0.0" 80 "LISTEN" (Some 1) :: []) ∧
  run denied_env (get_network_info denied_env) []
  = (Returns [VDict [("error",
       VStr ("Error getting network information: "
             +:+ exn_str (Exn AccessDenied "(pid=1)")))]],
     EvNetConnections ::
       lookups_of [conn SOCK_STREAM "0.0.0.0" 22 "LISTEN" (Some 812)]
       ++ [EvProcessName 1]).
Proof.
  split; [reflexivity|].
  apply (first_lookup_failure_reported denied_env
           [conn SOCK_STREAM "0.0.0.0" 22 "LISTEN" (Some 812)] []
           (conn SOCK_STREAM "0.0.0.0" 80 "LISTEN" (Some 1)) 1
           (Exn AccessDenied "(pid=1)")).
  - reflexivity.
  - repeat constructor. intros p e _ [= <-] _. discriminate.
  - reflexivity.
  - reflexivity.
  - lia.
  - reflexivity.
  - reflexivity.
Defined.

(** The collector never raises: whatever the enumeration and the lookups
    do, it returns a list, after one enumeration, made first, and lookups. *)
Lemma socket_collector_outcome (env : Env) :
  ∃ out tr,
    run env (get_network_info env) [] = (Returns out, EvNetConnections :: tr) ∧
    Forall (λ ev, ∃ p, ev = EvProcessName p ∧ p ≠ 0) tr.
Proof.
  pose proof (network_outcome env) as H.
  destruct (os_net_connections env) as [conns|e].
  - destruct H as (tr & Htr & H).
    assert (Forall (λ ev, ∃ p, ev = EvProcessName p ∧ p ≠ 0) tr) as Htr'.
    { eapply Forall_impl; [exact Htr|]. intros ev (c & p & _ & _ & _ & Hp & ->).
      by exists p. }
    destruct H as [(en & E & _)|(c & e & E & _)]; eauto.
  - exists (network_error e), []. by split.
Qed.

(** ** More on [run_scan] *)

(** The report [run_scan] builds from a software list and a list of
    listening ports. *)
Definition report_of (env : Env) (software network : list value) : value :=
  VDict [
    ("scan_metadata", VDict [
      ("scan_time_utc", VStr (utcnow_isoformat env));
      ("scanner_version", VStr "0.1.0")
    ]);
    ("nis2_compliance_checks", VDict [
      ("article_21_asset_management", VDict [
        ("title", VStr "Asset and Software Inventory (SBOM)");
        ("status", VStr "COMPLETED");
        ("data", VDict [
          ("system_info", VDict [
            ("os_type", VStr (platform_system env));
            ("os_release", VStr (platform_release env));
            ("os_version", VStr (platform_version env));
            ("architecture", VStr (platform_machine env));
            ("hostname", VStr (socket_gethostname env))
          ]);
          ("installed_software_sbom", VList software)
        ])
      ]);
      ("article_21_system_security", VDict [
        ("title", VStr "Basic System Security Analysis (Open Ports)");
        ("status", VStr "COMPLETED");
        ("data", VDict [
          ("listening_ports", VList network)
        ])
      ])
    ])
  ].

(** A run of [run_scan] on a fresh scanner, with the state it ends in. *)
Definition scan_state (env : Env) : outcome value * state unit :=
  run_scan env (State (init env) () []).

Definition analyzing : event := EvPrint "2. Analyzing network connections...".
Definition complete : event := EvPrint "Scan complete.".

Lemma scan_state_outcome env :
  scan_state env =
  match run env (installed_software env) () with
  | (Raises e, tr1) => (Raises e, State (init env) () (scan_prologue ++ tr1))
  | (Returns software, tr1) =>
      match run env (get_network_info env) [] with
      | (Raises e, tr2) =>
          (Raises e, State (init env) () (scan_prologue ++ tr1 ++ [analyzing] ++ tr2))
      | (Returns network, tr2) =>
          (Returns (report_of env software network),
           State {| os_type := platform_system env;
                    report := report_of env software network |} ()
             (scan_prologue ++ tr1 ++ [analyzing] ++ tr2 ++ [complete]))
      end
  end.
Proof.
  pose proof (run_framed env (installed_software env) () scan_prologue
                (framed_installed_software env)) as [[] E1].
  destruct (run env (installed_software env) ()) as [[software|e] tr1];
    cbn [fst snd] in E1.
  - destruct (run_framed env (get_network_info env) []
                ((scan_prologue ++ tr1) ++ [analyzing])
                (framed_network env)) as [l' E2].
    destruct (run env (get_network_info env) []) as [[network|e] tr2];
      cbn [fst snd] in E2.
    + unfold scan_state, run_scan.
      do 2 mstep. mstep by exact E1. do 2 mstep.
      mstep by (eapply call_eq; exact E2). do 4 mstep.
      cbn. rewrite <- !app_assoc. reflexivity.
    + unfold scan_state, run_scan.
      do 2 mstep. mstep by exact E1. do 2 mstep.
      erewrite bind_raises by (eapply call_eq; exact E2).
      cbn. rewrite <- !app_assoc. reflexivity.
  - unfold scan_state, run_scan.
    do 2 mstep. erewrite bind_raises by exact E1.
    reflexivity.
Qed.

Lemma scan_of_state env : scan env = ((scan_state env).1, trace (scan_state env).2).
Proof. unfold scan, scan_state. by destruct (run_scan env _). Qed.

(** X12: a report that [run_scan] returns carries, beside the two lists,
    the five attributes of the host under [system_info], the operating
    system among them being the one the package collector was chosen by,
    the time of the scan and the scanner version "0.1.0"; its two top-level
    keys are [scan_metadata] and [nis2_compliance_checks]. *)
Theorem report_system_info (env : Env) (rep : value) :
  (scan env).1 = Returns rep →
  get_path (asset_management ++ ["data"; "system_info"]) rep
  = Some (VDict [("os_type", VStr (platform_system env));
                 ("os_release", VStr (platform_release env));
                 ("os_version", VStr (platform_version env));
                 ("architecture", VStr (platform_machine env));
                 ("hostname", VStr (socket_gethostname env))]) ∧
  get_path ["scan_metadata"] rep
  = Some (VDict [("scan_time_utc", VStr (utcnow_isoformat env));
                 ("scanner_version", VStr "0.1.0")]) ∧
  (dict_items rep).*1 = ["scan_metadata"; "nis2_compliance_checks"] ∧
  ∃ software network,
    (run env (installed_software env) ()).1 = Returns software ∧
    (run env (get_network_info env) []).1 = Returns network ∧
    rep = report_of env software network.
Proof.
  rewrite scan_of_state, scan_state_outcome.
  destruct (run env (installed_software env) ()) as [[software|e] tr1]; [|done].
  destruct (run env (get_network_info env) []) as [[network|e] tr2]; [|done].
  intros [= <-]. repeat split. by exists software, network.
Qed.

Lemma report_system_info_witness :
  (scan darwin_env).1
  = Returns (report_of darwin_env (unsupported_error "Darwin")
               (network_error (Exn AccessDenied "(pid=1)"))) ∧
  get_path (asset_management ++ ["data"; "system_info"])
    (report_of darwin_env (unsupported_error "Darwin")
       (network_error (Exn AccessDenied "(pid=1)")))
  = Some (VDict [("os_type", VStr "Darwin");
                 ("os_release", VStr "23.1.0");
                 ("os_version", VStr "Darwin Kernel Version 23.1.0");
                 ("architecture", VStr "arm64");
                 ("hostname", VStr "mac")]).
Proof.
  split; [reflexivity|].
  exact (proj1 (report_system_info darwin_env _ eq_refl)).
Defined.

(** X13: [run_scan] stores the report it returns in the [report] attribute
    of the scanner and leaves [os_type] as it was; when it raises, the
    scanner is as [__init__] made it, its [report] still the empty
    dictionary. *)
Theorem report_attribute_set (env : Env) :
  match scan_state env with
  | (Returns rep, s) =>
      report (self s) = rep ∧ os_type (self s) = platform_system env
  | (Raises _, s) =>
      report (self s) = VDict [] ∧ os_type (self s) = platform_system env
  end.
Proof.
  rewrite scan_state_outcome.
  destruct (run env (installed_software env) ()) as [[software|e] tr1]; [|done].
  by destruct (run env (get_network_info env) []) as [[network|e] tr2].
Qed.

(** The launches of the software collection: none but on Linux, where
    [dpkg-query] is launched, and [rpm] after it or not. *)
Lemma installed_software_trace env :
  (run env (installed_software env) ()).2 = [] ∨
  (platform_system env = "Linux" ∧
   ((run env (installed_software env) ()).2 = [EvRun dpkg_argv] ∨
    (run env (installed_software env) ()).2 = [EvRun dpkg_argv; EvRun rpm_argv])).
Proof.
  destruct (decide (platform_system env = "Linux")) as [Hl|Hl].
  - right. split; [done|]. rewrite (installed_software_linux env Hl).
    destruct (linux_trace env) as [[_ ->]|[_ ->]]; auto.
  - left. destruct (decide (platform_system env = "Windows")) as [Hw|Hw].
    + by rewrite (installed_software_windows env Hw), windows_outcome.
    + by rewrite (installed_software_unsupported env Hl Hw).
Qed.

(** The calls of a scan, in their order. *)
Lemma scan_trace env :
  ∃ launches rest,
    (scan env).2 = scan_prologue ++ launches ++ rest ∧
    (launches = [] ∨
     platform_system env = "Linux" ∧
     (launches = [EvRun dpkg_argv] ∨ launches = [EvRun dpkg_argv; EvRun rpm_argv])) ∧
    ((∃ e, (scan env).1 = Raises e ∧ rest = [] ∧
           (run env (installed_software env) ()).1 = Raises e) ∨
     (∃ rep lookups software,
        (scan env).1 = Returns rep ∧
        (run env (installed_software env) ()).1 = Returns software ∧
        rest = [analyzing; EvNetConnections] ++ lookups ++ [complete] ∧
        Forall (λ ev, ∃ p, ev = EvProcessName p ∧ p ≠ 0) lookups)).
Proof.
  rewrite scan_of_state, scan_state_outcome.
  pose proof (installed_software_trace env) as Htr.
  destruct (run env (installed_software env) ()) as [[software|e] tr1]; cbn [snd] in Htr.
  - destruct (socket_collector_outcome env) as (network & lookups & E & Hl).
    rewrite E. exists tr1, ([analyzing; EvNetConnections] ++ lookups ++ [complete]).
    split; [done|]. split; [done|]. right.
    by exists (report_of env software network), lookups, software.
  - exists tr1, []. split; [by rewrite app_nil_r|]. split; [done|]. left. by exists e.
Qed.

(** X11: what a scan prints.  It first prints its two opening lines; it
    prints "Scan complete." exactly when it returns a report, and then as
    the last thing it does; the collectors print nothing. *)
Theorem scan_complete_printed (env : Env) :
  (∃ tr, (scan env).2 = scan_prologue ++ tr ∧
         Forall (λ ev, ∀ s, ev = EvPrint s → ev = analyzing ∨ ev = complete) tr) ∧
  ((complete ∈ (scan env).2) ↔ ∃ rep, (scan env).1 = Returns rep) ∧
  (∀ rep, (scan env).1 = Returns rep → ∃ tr, (scan env).2 = tr ++ [complete]).
Proof.
  destruct (scan_trace env) as (launches & rest & -> & Hla & Hrest).
  assert (Forall (λ ev, ∃ argv, ev = EvRun argv) launches) as Hrun.
  { destruct Hla as [->|[_ [->| ->]]]; repeat constructor; eauto. }
  assert (complete ∉ scan_prologue ++ launches) as Hnot.
  { intros [H|H]%elem_of_app.
    - unfold scan_prologue in H. rewrite !elem_of_cons, elem_of_nil in H.
      destruct H as [H|[H|[]]]; discriminate H.
    - rewrite Forall_forall in Hrun. by destruct (Hrun _ H) as [argv ?]. }
  split; [|split].
  - exists (launches ++ rest). split; [done|]. apply Forall_app. split.
    + eapply Forall_impl; [exact Hrun|]. by intros ev [argv ->] s.
    + destruct Hrest as [(e & _ & -> & _)|(rep & lookups & sw & _ & _ & -> & Hl)];
        [constructor|].
      apply Forall_cons_2; [intros s _; by left|].
      apply Forall_cons_2; [by intros s|]. apply Forall_app. split.
      * eapply Forall_impl; [exact Hl|]. by intros ev (p & -> & _) s.
      * apply Forall_cons_2; [intros s _; by right|constructor].
  - destruct Hrest as [(e & -> & -> & _)|(rep & lookups & sw & -> & _ & -> & _)].
    + rewrite app_nil_r. split; [done|]. by intros [rep ?].
    + split; [by eauto|]. intros _.
      apply elem_of_app. right. apply elem_of_app. right.
      apply elem_of_app. right. apply elem_of_app. right. left.
  - intros rep Hrep.
    destruct Hrest as [(e & He & _)|(rep' & lookups & sw & _ & _ & -> & _)];
      [congruence|].
    exists (scan_prologue ++ launches ++ [analyzing; EvNetConnections] ++ lookups).
    by rewrite <- !app_assoc.
Qed.

Lemma filter_none {A} (P : A → Prop) `{!∀ x, Decision (P x)} (l : list A) :
  Forall (λ x, ¬ P x) l → filter P l = [].
Proof.
  induction 1 as [|x l Hx _ IH]; [done|]. by rewrite filter_cons_False.
Qed.

(** X14: the commands a scan launches.  On a system other than Linux it
    launches none.  On Linux it launches [dpkg-query], first and once, and
    then [rpm], once, exactly when [dpkg-query] is missing or exits with a
    return code other than 0; it launches nothing else.  It enumerates the
    sockets exactly when the software list has been collected, after the
    launches, and never twice. *)
Theorem scan_launches (env : Env) :
  ∃ launches rest,
    (scan env).2 = scan_prologue ++ launches ++ rest ∧
    (platform_system env ≠ "Linux" → launches = []) ∧
    (platform_system env = "Linux" →
     (unavailable env dpkg_argv ∧ launches = [EvRun dpkg_argv; EvRun rpm_argv]) ∨
     (¬ unavailable env dpkg_argv ∧ launches = [EvRun dpkg_argv])) ∧
    Forall (λ ev, ∀ argv, ev ≠ EvRun argv) rest ∧
    (EvNetConnections ∈ rest ↔
     ∃ software, (run env (installed_software env) ()).1 = Returns software) ∧
    (length (filter (λ ev, ev = EvNetConnections) (scan env).2) ≤ 1)%nat.
Proof.
  assert (∃ rest lookups,
            (scan env).2 = scan_prologue ++ (run env (installed_software env) ()).2 ++ rest ∧
            Forall (λ ev, ∃ p, ev = EvProcessName p ∧ p ≠ 0) lookups ∧
            ((rest = [] ∧ ∃ e, (run env (installed_software env) ()).1 = Raises e) ∨
             (rest = [analyzing; EvNetConnections] ++ lookups ++ [complete] ∧
              ∃ software, (run env (installed_software env) ()).1 = Returns software)))
    as (rest & lookups & E & Hl & Hrest).
  { rewrite scan_of_state, scan_state_outcome.
    destruct (run env (installed_software env) ()) as [[software|e] tr1].
    - destruct (socket_collector_outcome env) as (network & lookups & En & Hl).
      rewrite En. exists ([analyzing; EvNetConnections] ++ lookups ++ [complete]), lookups.
      split; [done|]. split; [done|]. right. split; [done|]. by exists software.
    - exists [], []. split; [simpl; by rewrite app_nil_r|]. split; [constructor|].
      left. split; [done|]. by exists e. }
  assert ((platform_system env ≠ "Linux" → (run env (installed_software env) ()).2 = []) ∧
          (platform_system env = "Linux" →
           (unavailable env dpkg_argv ∧
            (run env (installed_software env) ()).2 = [EvRun dpkg_argv; EvRun rpm_argv]) ∨
           (¬ unavailable env dpkg_argv ∧
            (run env (installed_software env) ()).2 = [EvRun dpkg_argv])))
    as [Hother Hlinux].
  { split.
    - intros Hl'. destruct (decide (platform_system env = "Windows")) as [Hw|Hw].
      + by rewrite (installed_software_windows env Hw), windows_outcome.
      + by rewrite (installed_software_unsupported env Hl' Hw).
    - intros Hl'. rewrite (installed_software_linux env Hl'). apply linux_trace. }
  exists (run env (installed_software env) ()).2, rest.
  split; [done|]. split; [done|]. split; [done|]. split; [|split].
  - destruct Hrest as [[-> _]|[-> _]]; [constructor|].
    apply Forall_cons_2; [done|]. apply Forall_cons_2; [done|].
    apply Forall_app. split; [|by repeat constructor].
    eapply Forall_impl; [exact Hl|]. by intros ev (p & -> & _) argv.
  - destruct Hrest as [[-> [e He]]|[-> Hsw]].
    + split; [by intros ?%elem_of_nil|]. intros [sw Hsw]. congruence.
    + split; [done|]. intros _. right. left.
  - rewrite E, !filter_app, !length_app.
    assert (filter (λ ev, ev = EvNetConnections) scan_prologue = []) as -> by done.
    assert (filter (λ ev, ev = EvNetConnections) (run env (installed_software env) ()).2
            = []) as ->.
    { destruct (decide (platform_system env = "Linux")) as [Hl'|Hl'].
      - by destruct (Hlinux Hl') as [[_ ->]|[_ ->]].
      - by rewrite (Hother Hl'). }
    destruct Hrest as [[-> _]|[-> _]]; [simpl; lia|].
    rewrite !filter_app, (filter_none _ lookups).
    + simpl. lia.
    + eapply Forall_impl; [exact Hl|]. by intros ev (p & -> & _).
Qed.

Lemma scan_launches_witness :
  platform_system rpm_env = "Linux" ∧
  unavailable rpm_env dpkg_argv ∧
  (scan rpm_env).2
  = scan_prologue ++ [EvRun dpkg_argv; EvRun rpm_argv]
    ++ [analyzing; EvNetConnections; EvProcessName 812; EvProcessName 77; complete] ∧
  ∃ launches rest,
    (scan rpm_env).2 = scan_prologue ++ launches ++ rest ∧
    (platform_system rpm_env ≠ "Linux" → launches = []) ∧
    (platform_system rpm_env = "Linux" →
     (unavailable rpm_env dpkg_argv ∧ launches = [EvRun dpkg_argv; EvRun rpm_argv]) ∨
     (¬ unavailable rpm_env dpkg_argv ∧ launches = [EvRun dpkg_argv])) ∧
    Forall (λ ev, ∀ argv, ev ≠ EvRun argv) rest ∧
    (EvNetConnections ∈ rest ↔
     ∃ software, (run rpm_env (installed_software rpm_env) ()).1 = Returns software) ∧
    (length (filter (λ ev, ev = EvNetConnections) (scan rpm_env).2) ≤ 1)%nat.
Proof.
  split; [reflexivity|]. split; [by left|]. split; [reflexivity|].
  exact (scan_launches rpm_env).
Defined.
